(** * review_adder: the review writer and the image uploader

    A shallow embedding of [src/backend/app.py]: the request model
    [ReviewCreate] with its rating validator, and the two handlers
    [upload_image] and [create_review] together with the routes that
    FastAPI builds around them.

    Conventions of the embedding.
    - A Python [str] is a [string]; one [ascii] is one character, so
      [len] is [String.length].
    - A Python [float] is the rational number it denotes ([Q]).  The only
      float arithmetic of the program is [round(v * 2) / 2] on a value
      that already passed [ge=0.5, le=5]: doubling a binary64 number in
      that range is exact, [round] returns an [int], and an [int] between
      1 and 10 divided by 2 is exact, so the computation on [Q] is the
      computation on floats.
    - [os.environ] is a finite map from names to values.
    - The MongoDB driver and the S3 client are outside the repository:
      their answers are taken as parameters, and every call issued to them
      is appended to a log that the handlers thread through. *)

From Stdlib Require Import ZArith QArith Qround String Ascii Strings.Byte List Lia Lqa.
From Stdlib Require Import DecimalString Qabs.
From stdpp Require Import base option list gmap strings.

Local Open Scope Z_scope.
Local Open Scope string_scope.

(** ** Python built-ins used by the program *)

Module Py.

(** [bool(s)] for a string: the empty string is falsy. *)
Definition str_truthy (s : string) : bool :=
  match s with
  | EmptyString => false
  | String _ _ => true
  end.

(** [bool(x)] for an optional string ([None] and the empty string are falsy). *)
Definition opt_truthy (o : option string) : bool :=
  match o with
  | None => false
  | Some s => str_truthy s
  end.

(** [a or b] where [a] is an optional string and [b] a string. *)
Definition str_or (a : option string) (b : string) : string :=
  if opt_truthy a then default b a else b.

(** [a or []] where [a] is an optional list. *)
Definition list_or {A} (a : option (list A)) : list A :=
  match a with
  | Some (x :: l) => x :: l
  | _ => []
  end.

(** An f-string field holding an optional string: [None] prints as its name. *)
Definition fmt (o : option string) : string :=
  match o with
  | None => "None"
  | Some s => s
  end.

(** [c.lower()] on one character. *)
Definition lower_char (c : ascii) : ascii :=
  let n := N_of_ascii c in
  if ((65 <=? n) && (n <=? 90))%N then ascii_of_N (n + 32) else c.

(** [s.lower()]. *)
Fixpoint lower (s : string) : string :=
  match s with
  | EmptyString => EmptyString
  | String c s' => String (lower_char c) (lower s')
  end.

(** [sep.join(l)]. *)
Fixpoint join (sep : string) (l : list string) : string :=
  match l with
  | [] => EmptyString
  | [x] => x
  | x :: l' => x ++ sep ++ join sep l'
  end.

(** [s.rfind(c)] for a one-character [c]: the highest index holding [c],
    or [-1].  [i] is the index of the head of [s]. *)
Fixpoint rfind_from (c : ascii) (s : string) (i : Z) : Z :=
  match s with
  | EmptyString => -1
  | String a s' =>
      let r := rfind_from c s' (i + 1) in
      if (0 <=? r)%Z then r else if Ascii.eqb a c then i else -1
  end.

Definition rfind (s : string) (c : ascii) : Z := rfind_from c s 0.

(** [s[i:]] and [s[:i]] for [0 <= i]. *)
Fixpoint drop_str (n : nat) (s : string) : string :=
  match n, s with
  | O, _ => s
  | S n', String _ s' => drop_str n' s'
  | S _, EmptyString => EmptyString
  end.

Fixpoint take_str (n : nat) (s : string) : string :=
  match n, s with
  | S n', String c s' => String c (take_str n' s')
  | _, _ => EmptyString
  end.

(** [round(x)] with one argument: the nearest integer, a tie going to
    the even neighbour. *)
Definition round (x : Q) : Z :=
  let f := Qfloor x in
  match ((x - inject_Z f) ?= (1 # 2))%Q with
  | Lt => f
  | Gt => f + 1
  | Eq => if Z.even f then f else f + 1
  end.

End Py.

(** ** [os.path.splitext] (posixpath)

    [genericpath._splitext(p, sep='/', altsep=None, extsep='.')]: the
    extension starts at the last dot of the last path component, unless
    that component has only dots before it. *)

Module OsPath.

(** The [while filenameIndex < dotIndex] loop: [fuel] bounds the
    [dotIndex - filenameIndex] iterations that remain. *)
Fixpoint skip_leading_dots (p : string) (filenameIndex dotIndex : Z) (fuel : nat)
  : string * string :=
  match fuel with
  | O => (p, EmptyString)
  | S fuel' =>
      if (filenameIndex <? dotIndex)%Z then
        match String.get (Z.to_nat filenameIndex) p with
        | Some "."%char => skip_leading_dots p (filenameIndex + 1) dotIndex fuel'
        | _ => (Py.take_str (Z.to_nat dotIndex) p, Py.drop_str (Z.to_nat dotIndex) p)
        end
      else (p, EmptyString)
  end.

Definition splitext (p : string) : string * string :=
  let sepIndex := Py.rfind p "/"%char in
  let dotIndex := Py.rfind p "."%char in
  if (sepIndex <? dotIndex)%Z then
    skip_leading_dots p (sepIndex + 1) dotIndex (S (Z.to_nat (dotIndex - sepIndex)))
  else (p, EmptyString).

End OsPath.

(** ** The request model [ReviewCreate] *)

(** The validator of the [rating] field: [round(v * 2) / 2]. *)
Definition validate_rating (v : Q) : Q :=
  (inject_Z (Py.round (v * 2)) / 2)%Q.

(** The JSON body of [POST /api/reviews] as the client sent it: an absent
    key is [None]; [content] and [images] may also be sent as [null]. *)
Record ReviewBody := {
  json_productId : option string;
  json_rating : option Q;
  json_userName : option string;
  json_content : option (option string);
  json_images : option (option (list string));
}.

Record ReviewCreate := {
  product_id : string;
  rating : Q;
  user_name : string;
  content : option string;
  images : option (list string);
}.

(** The error types pydantic reports for the constraints of [ReviewCreate]. *)
Inductive ErrorType :=
  | missing
  | string_too_short
  | string_too_long
  | greater_than_equal
  | less_than_equal.

(** One entry of a validation error: the location (the field's alias) and
    the type of the error. *)
Definition ErrorDetail : Type := string * ErrorType.

(** [Field(..., min_length=1)] on a required string. *)
Definition required_str (loc : string) (v : option string) : ErrorDetail + string :=
  match v with
  | None => inl (loc, missing)
  | Some s => if (1 <=? String.length s)%nat then inr s else inl (loc, string_too_short)
  end.

(** [rating: float = Field(..., ge=0.5, le=5)], then the field validator,
    which runs after the constraints (mode "after"). *)
Definition rating_field (v : option Q) : ErrorDetail + Q :=
  match v with
  | None => inl ("rating", missing)
  | Some r =>
      if negb (Qle_bool (1 # 2) r) then inl ("rating", greater_than_equal)
      else if negb (Qle_bool r 5) then inl ("rating", less_than_equal)
      else inr (validate_rating r)
  end.

(** [content: Optional[str] = Field(default="", max_length=2000)]. *)
Definition content_field (v : option (option string)) : ErrorDetail + option string :=
  match v with
  | None => inr (Some EmptyString)
  | Some None => inr None
  | Some (Some s) =>
      if (String.length s <=? 2000)%nat then inr (Some s) else inl ("content", string_too_long)
  end.

(** [images: Optional[list[str]] = Field(default_factory=list)]. *)
Definition images_field (v : option (option (list string))) : ErrorDetail + option (list string) :=
  match v with
  | None => inr (Some [])
  | Some i => inr i
  end.

Definition errors_of {A} (r : ErrorDetail + A) : list ErrorDetail :=
  match r with
  | inl e => [e]
  | inr _ => []
  end.

(** Building a [ReviewCreate] from a body: the model when every field
    validates, else the errors of all fields in declaration order. *)
Definition ReviewCreate_validate (b : ReviewBody) : list ErrorDetail + ReviewCreate :=
  let p := required_str "productId" (json_productId b) in
  let r := rating_field (json_rating b) in
  let u := required_str "userName" (json_userName b) in
  let c := content_field (json_content b) in
  let i := images_field (json_images b) in
  match p, r, u, c, i with
  | inr p', inr r', inr u', inr c', inr i' =>
      inr {| product_id := p'; rating := r'; user_name := u'; content := c'; images := i' |}
  | _, _, _, _, _ =>
      inl (errors_of p ++ errors_of r ++ errors_of u ++ errors_of c ++ errors_of i)%list
  end.

Module ReviewResponse.
Record t := { success : bool; review_id : option string; message : string }.
End ReviewResponse.

Module ImageUploadResponse.
Record t := { success : bool; url : option string; message : string }.
End ImageUploadResponse.

(** ** Values of the program *)

(** [uuid.UUID]: the 128-bit integer behind it. *)
Record UUID := { int : N }.

Definition hex_digit (n : N) : ascii :=
  default "0"%char (String.get (N.to_nat n) "0123456789abcdef").

(** ['%032x' % self.int]: the 32 hexadecimal digits, most significant first. *)
Definition hex32 (n : N) : string :=
  string_of_list_ascii
    (map (fun i => hex_digit (N.land (N.shiftr n (4 * N.of_nat i)) 15)) (rev (seq 0 32))).

(** [str(u)]: the digits in groups of 8, 4, 4, 4 and 12. *)
Definition str_uuid (u : UUID) : string :=
  let hex := hex32 (int u) in
  substring 0 8 hex ++ "-" ++ substring 8 4 hex ++ "-" ++ substring 12 4 hex
    ++ "-" ++ substring 16 4 hex ++ "-" ++ substring 20 12 hex.

(** The values a review document holds. *)
Inductive Value :=
  | VNone
  | VStr (s : string)
  | VInt (n : Z)
  | VFloat (q : Q)
  | VList (l : list string).

(** A [dict] literal: its items in insertion order. *)
Definition document : Type := list (string * Value).

(** [d.get(k)]. *)
Fixpoint doc_get (d : document) (k : string) : option Value :=
  match d with
  | [] => None
  | (k', v) :: d' => if String.eqb k' k then Some v else doc_get d' k
  end.

(** [UploadFile]: the name the client gave, the declared content type and
    the bytes [await file.read()] returns. *)
Record UploadFile := {
  filename : string;
  file_content_type : option string;
  file_contents : list byte;
}.

(** ** Exceptions, backend calls and the handler monad *)

Inductive Exn :=
  | HTTPException (status_code : Z) (detail : string)
  | BackendError (text : string).

(** [str(e)]; an [HTTPException] prints as its status, a colon and its
    detail. *)
Definition str_exn (e : Exn) : string :=
  match e with
  | HTTPException code detail => NilZero.string_of_int (Z.to_int code) ++ ": " ++ detail
  | BackendError text => text
  end.

(** The calls a handler issues to the two backends. *)
Inductive Call :=
  | PutObject (Bucket : option string) (Key : string) (Body : list byte) (ContentType : string)
  | InsertOne (database collection : string) (doc : document).

(** What [insert_one] answers: a result carrying [inserted_id], or an
    exception of the driver. *)
Inductive InsertReply :=
  | InsertOneResult (inserted_id : option string)
  | InsertRaises (text : string).

Inductive Outcome (A : Type) :=
  | Return (a : A)
  | Raise (e : Exn).
Arguments Return {A} a.
Arguments Raise {A} e.

(** A handler: from the log of calls issued so far to its outcome and the
    log extended by its own calls. *)
Definition M (A : Type) : Type := list Call -> Outcome A * list Call.

#[global] Instance M_ret : MRet M := fun A a log => (Return a, log).

#[global] Instance M_bind : MBind M := fun A B f m log =>
  match m log with
  | (Return a, log') => f a log'
  | (Raise e, log') => (Raise e, log')
  end.

Definition raise {A} (e : Exn) : M A := fun log => (Raise e, log).

(** [try: body except Exception as e: handler(e)]. *)
Definition try_except {A} (body : M A) (handler : Exn -> M A) : M A := fun log =>
  match body log with
  | (Return a, log') => (Return a, log')
  | (Raise e, log') => handler e log'
  end.

(** ** The application *)

Section App.

(** [os.environ] once [load_dotenv()] has run. *)
Variable environ : gmap string string.

(** What [uuid.uuid4()] returns and what [datetime.utcnow().isoformat()]
    prints during the request. *)
Variable uuid4 : UUID.
Variable utcnow_isoformat : string.

(** The order in which iterating over the set [allowed_extensions] yields
    its members (it changes from one process to the next). *)
Variable set_iteration : gset string -> list string.

(** The backends: [put_object] succeeds ([None]) or raises an exception
    with the given text; [insert_one] answers with an [InsertReply]. *)
Variable s3_put_object : option string -> string -> list byte -> string -> option string.
Variable db_insert_one : string -> string -> document -> InsertReply.

Definition getenv (key : string) : option string := environ !! key.
Definition getenv_default (key dflt : string) : string := default dflt (environ !! key).

Definition MONGO_URL : string := getenv_default "MONGODB_URL" "mongodb://localhost:27017".
Definition DB_NAME : string := getenv_default "MONGODB_DB_NAME" "ecommerce".
Definition REVIEWS_COL : string := "reviews".

Definition AWS_ACCESS_KEY_ID : option string := getenv "AWS_ACCESS_KEY_ID".
Definition AWS_SECRET_ACCESS_KEY : option string := getenv "AWS_SECRET_ACCESS_KEY".
Definition AWS_S3_REGION : string := getenv_default "AWS_S3_REGION" "ap-northeast-2".
Definition AWS_S3_BUCKET_NAME : option string := getenv "AWS_S3_BUCKET_NAME".

(** The client [boto3.client("s3", ...)] builds from the credentials. *)
Record S3Client := {
  aws_access_key_id : option string;
  aws_secret_access_key : option string;
  region_name : string;
}.

Definition s3_client : option S3Client :=
  if Py.opt_truthy AWS_ACCESS_KEY_ID && Py.opt_truthy AWS_SECRET_ACCESS_KEY then
    Some {| aws_access_key_id := AWS_ACCESS_KEY_ID;
            aws_secret_access_key := AWS_SECRET_ACCESS_KEY;
            region_name := AWS_S3_REGION |}
  else None.

(** [s3_client.put_object(Bucket=..., Key=..., Body=..., ContentType=...)]. *)
Definition put_object (Bucket : option string) (Key : string) (Body : list byte)
    (ContentType : string) : M unit := fun log =>
  let log' := (log ++ [PutObject Bucket Key Body ContentType])%list in
  match s3_put_object Bucket Key Body ContentType with
  | None => (Return tt, log')
  | Some text => (Raise (BackendError text), log')
  end.

(** [await db[REVIEWS_COL].insert_one(doc)] with [db = get_db()]. *)
Definition insert_one (database collection : string) (doc : document) : M (option string) :=
  fun log =>
  let log' := (log ++ [InsertOne database collection doc])%list in
  match db_insert_one database collection doc with
  | InsertOneResult inserted_id => (Return inserted_id, log')
  | InsertRaises text => (Raise (BackendError text), log')
  end.

Definition get_db : string := DB_NAME.

Definition allowed_extensions : gset string :=
  {[ ".jpg"; ".jpeg"; ".png"; ".gif"; ".webp" ]}.

(** [len(contents) > 10 * 1024 * 1024]. *)
Definition too_large (contents : list byte) : bool :=
  (10 * 1024 * 1024 <? Z.of_nat (length contents))%Z.

(** [upload_image(file, product_id)]. *)
Definition upload_image (file : UploadFile) (product_id : string) : M ImageUploadResponse.t :=
  if negb (bool_decide (is_Some s3_client)) then
    raise (HTTPException 500 "S3 설정이 되어있지 않습니다")
  else if negb (Py.str_truthy product_id) then
    mret {| ImageUploadResponse.success := false;
            ImageUploadResponse.url := None;
            ImageUploadResponse.message := "상품 ID가 필요합니다" |}
  else
    let file_ext := Py.lower (snd (OsPath.splitext (filename file))) in
    if bool_decide (file_ext ∉ allowed_extensions) then
      mret {| ImageUploadResponse.success := false;
              ImageUploadResponse.url := None;
              ImageUploadResponse.message :=
                "허용되지 않는 파일 형식입니다. ("
                  ++ Py.join ", " (set_iteration allowed_extensions) ++ ")" |}
    else
      let contents := file_contents file in
      if too_large contents then
        mret {| ImageUploadResponse.success := false;
                ImageUploadResponse.url := None;
                ImageUploadResponse.message := "파일 크기는 10MB 이하여야 합니다" |}
      else
        let file_name := str_uuid uuid4 ++ file_ext in
        let s3_key :=
          if Py.str_truthy product_id then "reviews/" ++ product_id ++ "/" ++ file_name
          else "reviews/" ++ file_name in
        try_except
          (let content_type := Py.str_or (file_content_type file) "image/jpeg" in
           put_object AWS_S3_BUCKET_NAME s3_key contents content_type ;;
           let url := "https://" ++ Py.fmt AWS_S3_BUCKET_NAME ++ ".s3." ++ AWS_S3_REGION
                        ++ ".amazonaws.com/" ++ s3_key in
           mret {| ImageUploadResponse.success := true;
                   ImageUploadResponse.url := Some url;
                   ImageUploadResponse.message := "업로드 완료" |})
          (fun e =>
           mret {| ImageUploadResponse.success := false;
                   ImageUploadResponse.url := None;
                   ImageUploadResponse.message := "업로드 실패: " ++ str_exn e |}).

(** The dictionary [new_review] that [create_review] builds. *)
Definition new_review (review_id now : string) (review : ReviewCreate) : document :=
  [ ("reviewId", VStr review_id);
    ("productId", VStr (product_id review));
    ("userId", VNone);
    ("userName", VStr (user_name review));
    ("rating", VFloat (rating review));
    ("content", VStr (Py.str_or (content review) EmptyString));
    ("images", VList (Py.list_or (images review)));
    ("createdAt", VStr now);
    ("updatedAt", VStr now);
    ("helpful", VInt 0);
    ("helpfulUsers", VList []);
    ("status", VStr "active") ].

(** [create_review(review)]. *)
Definition create_review (review : ReviewCreate) : M ReviewResponse.t :=
  let db := get_db in
  let review_id := str_uuid uuid4 in
  let now := utcnow_isoformat ++ "Z" in
  inserted_id ← insert_one db REVIEWS_COL (new_review review_id now review) ;
  if bool_decide (is_Some inserted_id) then
    mret {| ReviewResponse.success := true;
            ReviewResponse.review_id := Some review_id;
            ReviewResponse.message := "리뷰가 등록되었습니다" |}
  else
    mret {| ReviewResponse.success := false;
            ReviewResponse.review_id := None;
            ReviewResponse.message := "리뷰 저장에 실패했습니다" |}.

(** ** The routes

    What FastAPI does around a handler: a request that does not build the
    handler's parameters is answered 422 with the validation errors and
    the handler does not run; a returned model is sent with status 200; an
    [HTTPException] is sent with its status and detail; any other
    exception is answered 500 by the server. *)

Inductive HttpBody :=
  | JsonImageUpload (r : ImageUploadResponse.t)
  | JsonReview (r : ReviewResponse.t)
  | JsonDetail (detail : string)
  | JsonValidationErrors (errors : list ErrorDetail)
  | InternalServerError.

Record HttpResponse := { status : Z; body : HttpBody }.

Definition respond {A} (wrap : A -> HttpBody) (o : Outcome A) : HttpResponse :=
  match o with
  | Return a => {| status := 200; body := wrap a |}
  | Raise (HTTPException code detail) => {| status := code; body := JsonDetail detail |}
  | Raise (BackendError _) => {| status := 500; body := InternalServerError |}
  end.

(** [@app.post("/api/upload/image")]: [file] is a required form file,
    [product_id] a query parameter whose default is the empty string. *)
Definition post_api_upload_image (file : option UploadFile) (product_id : option string)
    (log : list Call) : HttpResponse * list Call :=
  match file with
  | None => ({| status := 422; body := JsonValidationErrors [("file", missing)] |}, log)
  | Some f =>
      let (o, log') := upload_image f (default EmptyString product_id) log in
      (respond JsonImageUpload o, log')
  end.

(** [@app.post("/api/reviews")]: the body is parsed into a [ReviewCreate]. *)
Definition post_api_reviews (b : ReviewBody) (log : list Call) : HttpResponse * list Call :=
  match ReviewCreate_validate b with
  | inl errors => ({| status := 422; body := JsonValidationErrors errors |}, log)
  | inr review =>
      let (o, log') := create_review review log in
      (respond JsonReview o, log')
  end.

End App.

(** ** Notions used to state the properties *)

(** [sub] occurs in [s]. *)
Definition contains (sub s : string) : Prop :=
  exists pre post, s = pre ++ sub ++ post.

(** [s.endswith(suffix)]. *)
Definition ends_with (suffix s : string) : bool :=
  String.eqb (Py.drop_str (String.length s - String.length suffix) s) suffix.

(** The local [file_ext] of [upload_image]: the extension of the name the
    client gave, in lower case. *)
Definition file_ext_of (file : UploadFile) : string :=
  Py.lower (snd (OsPath.splitext (filename file))).

(** The local [s3_key] of [upload_image] for a non-empty product
    identifier. *)
Definition s3_key_of (uuid4 : UUID) (file : UploadFile) (product_id : string) : string :=
  "reviews/" ++ product_id ++ "/" ++ str_uuid uuid4 ++ file_ext_of file.

(** A required field of the review body that is missing or breaks its
    constraint, with the error pydantic files for it. *)
Inductive invalid_required (b : ReviewBody) : ErrorDetail -> Prop :=
  | productId_missing :
      json_productId b = None -> invalid_required b ("productId", missing)
  | productId_empty :
      json_productId b = Some EmptyString ->
      invalid_required b ("productId", string_too_short)
  | rating_missing :
      json_rating b = None -> invalid_required b ("rating", missing)
  | rating_too_small r :
      json_rating b = Some r -> (r < 1 # 2)%Q ->
      invalid_required b ("rating", greater_than_equal)
  | rating_too_large r :
      json_rating b = Some r -> (5 < r)%Q ->
      invalid_required b ("rating", less_than_equal)
  | userName_missing :
      json_userName b = None -> invalid_required b ("userName", missing)
  | userName_empty :
      json_userName b = Some EmptyString ->
      invalid_required b ("userName", string_too_short).

(** The keys of the persisted review document, in the order of the
    dictionary literal. *)
Definition review_fields : list string :=
  [ "reviewId"; "productId"; "userId"; "userName"; "rating"; "content"; "images";
    "createdAt"; "updatedAt"; "helpful"; "helpfulUsers"; "status" ].

(** Sample data for the worked examples: an environment with and without
    storage credentials, a UUID, a clock reading and review bodies. *)
Module Sample.

Definition env_s3 : gmap string string :=
  <["AWS_ACCESS_KEY_ID" := "AKIAEXAMPLE"]>
    (<["AWS_SECRET_ACCESS_KEY" := "secret"]>
      (<["AWS_S3_BUCKET_NAME" := "review-images"]> ∅)).

Definition env_no_s3 : gmap string string := <["AWS_S3_BUCKET_NAME" := "review-images"]> ∅.

Definition uuid : UUID := {| int := 0x1b4e28ba2fa111d2883f0016d3cca427 |}.

Definition now : string := "2024-05-01T12:00:00.000000".

(** The binary64 number that the literal [4.3] denotes. *)
Definition float_4_3 : Q := 4841369599423283 # 1125899906842624.

Definition body (product : option string) (rating : option Q) : ReviewBody :=
  {| json_productId := product;
     json_rating := rating;
     json_userName := Some "alice";
     json_content := None;
     json_images := None |}.

Definition review_p1 : ReviewBody := body (Some "p1") (Some float_4_3).

(** The model that [review_p1] builds. *)
Definition accepted (product : string) (rating : Q) : ReviewCreate :=
  {| product_id := product;
     rating := validate_rating rating;
     user_name := "alice";
     content := Some EmptyString;
     images := Some [] |}.

Definition image (name : string) (size : N) : UploadFile :=
  {| filename := name;
     file_content_type := Some "image/png";
     file_contents := repeat x00 (N.to_nat size) |}.

Definition MiB : N := 1024 * 1024.

Definition s3_ok : option string -> string -> list byte -> string -> option string :=
  fun _ _ _ _ => None.

Definition s3_down : option string -> string -> list byte -> string -> option string :=
  fun _ _ _ _ => Some "Could not connect to the endpoint URL".

Definition db_ok : string -> string -> document -> InsertReply :=
  fun _ _ _ => InsertOneResult (Some "663238c0a7b1f2e4d5c6b7a8").

Definition db_down : string -> string -> document -> InsertReply :=
  fun _ _ _ => InsertRaises "localhost:27017: [Errno 111] Connection refused".

End Sample.

(** [c in s] for a one-character [c]. *)
Fixpoint occurs (c : ascii) (s : string) : bool :=
  match s with
  | EmptyString => false
  | String a s' => Ascii.eqb a c || occurs c s'
  end.

(** The [n] characters of [p] from index [i] on are all periods. *)
Fixpoint all_dots (p : string) (i : Z) (n : nat) : bool :=
  match n with
  | O => true
  | S n' =>
      match String.get (Z.to_nat i) p with
      | Some "."%char => all_dots p (i + 1) n'
      | _ => false
      end
  end.

(** A name without an extension in the sense of [splitext]: its last
    period is not after its last slash, or only periods lie between the
    two. *)
Definition no_extension (p : string) : Prop :=
  Py.rfind p "."%char <= Py.rfind p "/"%char \/
  all_dots p (Py.rfind p "/"%char + 1)
    (Z.to_nat (Py.rfind p "."%char - Py.rfind p "/"%char - 1)) = true.


(** What [review.content or ""] and [review.images or []] store for each
    way of sending the two optional fields. *)
Definition stored_content (sent : option (option string)) : string :=
  match sent with
  | Some (Some s) => s
  | _ => EmptyString
  end.

Definition stored_images (sent : option (option (list string))) : list string :=
  match sent with
  | Some (Some l) => l
  | _ => []
  end.

(** More sample data: a text of a given length and bodies carrying
    optional fields. *)
Module Sample2.

Definition text (n : nat) : string := string_of_list_ascii (repeat "a"%char n).

Definition body_with (content : option (option string))
    (images : option (option (list string))) : ReviewBody :=
  {| json_productId := Some "p1";
     json_rating := Some (4 # 1);
     json_userName := Some "alice";
     json_content := content;
     json_images := images |}.

Definition db_unconfirmed : string -> string -> document -> InsertReply :=
  fun _ _ _ => InsertOneResult None.

Definition env_key_only : gmap string string :=
  <["AWS_ACCESS_KEY_ID" := "AKIAEXAMPLE"]> (<["AWS_S3_BUCKET_NAME" := "review-images"]> ∅).

End Sample2.

(** * Properties *)

(** ** Rounding *)

Lemma floor_spec (x : Q) :
  (inject_Z (Qfloor x) <= x)%Q /\ (x < inject_Z (Qfloor x) + 1)%Q.
Proof.
  split; [apply Qfloor_le|].
  pose proof (Qlt_floor x) as H. rewrite inject_Z_plus in H. exact H.
Qed.

(** The three branches of [round], by the fractional part. *)
Lemma round_cases (x : Q) :
  ((x - inject_Z (Qfloor x) < 1 # 2)%Q /\ Py.round x = Qfloor x) \/
  ((1 # 2 < x - inject_Z (Qfloor x))%Q /\ Py.round x = Qfloor x + 1) \/
  ((x - inject_Z (Qfloor x) == 1 # 2)%Q /\
   Py.round x = if Z.even (Qfloor x) then Qfloor x else Qfloor x + 1).
Proof.
  unfold Py.round; cbv zeta.
  destruct (Qcompare_spec (x - inject_Z (Qfloor x)) (1 # 2)) as [E|L|G]; auto.
Qed.

(** [round] stays between integer bounds of its argument. *)
Lemma round_range (x : Q) (lo hi : Z) :
  (inject_Z lo <= x)%Q -> (x <= inject_Z hi)%Q -> lo <= Py.round x <= hi.
Proof.
  intros Hlo Hhi.
  destruct (floor_spec x) as [Hf1 Hf2].
  assert (Hlof : lo <= Qfloor x).
  { rewrite <- (Qfloor_Z lo). now apply Qfloor_resp_le. }
  assert (Hhif : Qfloor x <= hi).
  { rewrite <- (Qfloor_Z hi). now apply Qfloor_resp_le. }
  assert (Hup : (1 # 2 <= x - inject_Z (Qfloor x))%Q -> Qfloor x + 1 <= hi).
  { intros Hhalf.
    assert (Hlt : (inject_Z (Qfloor x) < inject_Z hi)%Q) by lra.
    rewrite <- Zlt_Qlt in Hlt. lia. }
  destruct (round_cases x) as [[H ->]|[[H ->]|[H ->]]].
  - lia.
  - split; [lia|]. apply Hup. lra.
  - destruct (Z.even (Qfloor x)); [lia|].
    split; [lia|]. apply Hup. lra.
Qed.

(** [round] is within one half of its argument. *)
Lemma round_nearest (x : Q) :
  (x - (1 # 2) <= inject_Z (Py.round x) <= x + (1 # 2))%Q.
Proof.
  destruct (floor_spec x) as [Hf1 Hf2].
  destruct (round_cases x) as [[H ->]|[[H ->]|[H ->]]].
  - lra.
  - rewrite inject_Z_plus. change (inject_Z 1) with 1%Q. lra.
  - destruct (Z.even (Qfloor x)).
    + lra.
    + rewrite inject_Z_plus. change (inject_Z 1) with 1%Q. lra.
Qed.

(** The floor of an integer plus one half. *)
Lemma floor_half (x : Q) (m : Z) :
  (x == inject_Z m + (1 # 2))%Q -> Qfloor x = m.
Proof.
  intros Hx.
  destruct (floor_spec x) as [Hf1 Hf2].
  assert (H1 : (inject_Z (Qfloor x) < inject_Z (m + 1))%Q).
  { rewrite inject_Z_plus. change (inject_Z 1) with 1%Q. lra. }
  assert (H2 : (inject_Z m < inject_Z (Qfloor x + 1))%Q).
  { rewrite inject_Z_plus. change (inject_Z 1) with 1%Q. lra. }
  rewrite <- Zlt_Qlt in H1, H2. lia.
Qed.

(** On a tie [round] picks the even neighbour. *)
Lemma round_tie (x : Q) (m : Z) :
  (x == inject_Z m + (1 # 2))%Q ->
  Py.round x = (if Z.even m then m else m + 1) /\ Z.even (Py.round x) = true.
Proof.
  intros Hx. pose proof (floor_half x m Hx) as Hf.
  destruct (round_cases x) as [[H E]|[[H E]|[H E]]]; rewrite Hf in *.
  - lra.
  - lra.
  - rewrite E. destruct (Z.even m) eqn:Hm; [easy|].
    split; [easy|]. rewrite Z.even_add, Hm. reflexivity.
Qed.

(** A rating within the constraints is stored as one of the ten half
    steps from 0.5 to 5. *)
Lemma validate_rating_half_step (r : Q) :
  (1 # 2 <= r)%Q -> (r <= 5)%Q ->
  exists k : Z,
    1 <= k <= 10 /\ k = Py.round (r * 2) /\
    (validate_rating r == inject_Z k * (1 # 2))%Q /\
    (1 # 2 <= validate_rating r)%Q /\ (validate_rating r <= 5)%Q.
Proof.
  intros Hlo Hhi.
  assert (Hk : 1 <= Py.round (r * 2) <= 10).
  { apply round_range; change (inject_Z 1) with 1%Q; change (inject_Z 10) with 10%Q; lra. }
  exists (Py.round (r * 2)). split; [exact Hk|]. split; [reflexivity|].
  destruct Hk as [Hk1 Hk2].
  rewrite Zle_Qle in Hk1, Hk2.
  change (inject_Z 1) with 1%Q in Hk1. change (inject_Z 10) with 10%Q in Hk2.
  unfold validate_rating.
  assert (E : (inject_Z (Py.round (r * 2)) / 2 == inject_Z (Py.round (r * 2)) * (1 # 2))%Q).
  { unfold Qdiv. reflexivity. }
  rewrite E. split; [reflexivity|]. lra.
Qed.

(** ** Validation of the review body *)

Lemma required_str_inr (loc : string) (v : option string) (s : string) :
  required_str loc v = inr s <-> v = Some s /\ s <> EmptyString.
Proof.
  unfold required_str. destruct v as [[|c t]|]; simpl; split.
  - discriminate.
  - intros [[= <-] H]. now destruct H.
  - intros [= <-]. easy.
  - intros [[= <-] _]. reflexivity.
  - discriminate.
  - intros [[=] _].
Qed.

Lemma rating_field_inr (v : option Q) (q : Q) :
  rating_field v = inr q <->
  exists r, v = Some r /\ (1 # 2 <= r)%Q /\ (r <= 5)%Q /\ q = validate_rating r.
Proof.
  unfold rating_field. destruct v as [r|].
  - destruct (Qle_bool (1 # 2) r) eqn:Hlo; simpl.
    + destruct (Qle_bool r 5) eqn:Hhi; simpl.
      * apply Qle_bool_iff in Hlo, Hhi. split.
        -- intros [= <-]. now exists r.
        -- intros (r' & [= <-] & _ & _ & ->). reflexivity.
      * split; [discriminate|]. intros (r' & [= <-] & _ & H & _).
        apply Qle_bool_iff in H. congruence.
    + split; [discriminate|]. intros (r' & [= <-] & H & _).
      apply Qle_bool_iff in H. congruence.
  - split; [discriminate|]. intros (r' & [=] & _).
Qed.

(** What an accepted body looks like. *)
Lemma ReviewCreate_validate_inr (b : ReviewBody) (review : ReviewCreate) :
  ReviewCreate_validate b = inr review <->
  required_str "productId" (json_productId b) = inr (product_id review) /\
  rating_field (json_rating b) = inr (rating review) /\
  required_str "userName" (json_userName b) = inr (user_name review) /\
  content_field (json_content b) = inr (content review) /\
  images_field (json_images b) = inr (images review).
Proof.
  unfold ReviewCreate_validate; cbv zeta.
  destruct (required_str "productId" (json_productId b)) as [e1|p];
  destruct (rating_field (json_rating b)) as [e2|r];
  destruct (required_str "userName" (json_userName b)) as [e3|u];
  destruct (content_field (json_content b)) as [e4|c];
  destruct (images_field (json_images b)) as [e5|i];
  (split; [try discriminate; intros [= <-]; simpl; auto
          | intros (H1 & H2 & H3 & H4 & H5); try discriminate]).
  destruct review; simpl in *. congruence.
Qed.

(** A field that does not validate is among the reported errors, and the
    body is rejected. *)
Lemma ReviewCreate_validate_inl (b : ReviewBody) (e : ErrorDetail) :
  required_str "productId" (json_productId b) = inl e \/
  rating_field (json_rating b) = inl e \/
  required_str "userName" (json_userName b) = inl e ->
  exists errors, ReviewCreate_validate b = inl errors /\ In e errors.
Proof.
  unfold ReviewCreate_validate; cbv zeta.
  destruct (required_str "productId" (json_productId b)) as [e1|p];
  destruct (rating_field (json_rating b)) as [e2|r];
  destruct (required_str "userName" (json_userName b)) as [e3|u];
  destruct (content_field (json_content b)) as [e4|c];
  destruct (images_field (json_images b)) as [e5|i];
  intros [H|[H|H]]; try discriminate; injection H as <-;
  eexists; (split; [reflexivity|]); simpl; tauto.
Qed.

Lemma invalid_required_field (b : ReviewBody) (e : ErrorDetail) :
  invalid_required b e ->
  required_str "productId" (json_productId b) = inl e \/
  rating_field (json_rating b) = inl e \/
  required_str "userName" (json_userName b) = inl e.
Proof.
  destruct 1 as [H|H|H|r H Hr|r H Hr|H|H];
    unfold required_str, rating_field; rewrite H; simpl; auto.
  - right; left.
    destruct (Qle_bool (1 # 2) r) eqn:E; [|reflexivity].
    apply Qle_bool_iff in E. lra.
  - right; left.
    destruct (Qle_bool (1 # 2) r) eqn:E1.
    + destruct (Qle_bool r 5) eqn:E2; [|reflexivity].
      apply Qle_bool_iff in E2. lra.
    + assert (~ (1 # 2 <= r)%Q) by (rewrite <- Qle_bool_iff; congruence). lra.
Qed.

(** ** The review route *)

Section ReviewRoute.

Variable environ : gmap string string.
Variable uuid4 : UUID.
Variable utcnow_isoformat : string.
Variable db_insert_one : string -> string -> document -> InsertReply.

Let create := create_review environ uuid4 utcnow_isoformat db_insert_one.
Let route := post_api_reviews environ uuid4 utcnow_isoformat db_insert_one.
Let doc_of (review : ReviewCreate) : document :=
  new_review (str_uuid uuid4) (utcnow_isoformat ++ "Z") review.

(** The handler issues exactly one call: the insert of [new_review]. *)
Lemma create_review_log (review : ReviewCreate) (log : list Call) :
  snd (create review log)
  = (log ++ [InsertOne (DB_NAME environ) REVIEWS_COL (doc_of review)])%list.
Proof.
  unfold create, create_review, doc_of, get_db, mbind, M_bind, insert_one.
  destruct (db_insert_one _ _ _) as [[oid|]|text]; reflexivity.
Qed.

(** The three answers of the driver and what the handler makes of them. *)
Lemma create_review_outcome (review : ReviewCreate) (log : list Call) :
  fst (create review log)
  = match db_insert_one (DB_NAME environ) REVIEWS_COL (doc_of review) with
    | InsertOneResult (Some _) =>
        Return {| ReviewResponse.success := true;
                  ReviewResponse.review_id := Some (str_uuid uuid4);
                  ReviewResponse.message := "리뷰가 등록되었습니다" |}
    | InsertOneResult None =>
        Return {| ReviewResponse.success := false;
                  ReviewResponse.review_id := None;
                  ReviewResponse.message := "리뷰 저장에 실패했습니다" |}
    | InsertRaises text => Raise (BackendError text)
    end.
Proof.
  unfold create, create_review, doc_of, get_db, mbind, M_bind, insert_one.
  destruct (db_insert_one _ _ _) as [[oid|]|text]; reflexivity.
Qed.

Lemma post_api_reviews_accepted (b : ReviewBody) (review : ReviewCreate) (log : list Call) :
  ReviewCreate_validate b = inr review ->
  route b log = (respond JsonReview (fst (create review log)), snd (create review log)).
Proof.
  intros H. unfold route, post_api_reviews. rewrite H.
  fold create. destruct (create review log); reflexivity.
Qed.

Lemma post_api_reviews_rejected (b : ReviewBody) (errors : list ErrorDetail) (log : list Call) :
  ReviewCreate_validate b = inl errors ->
  route b log = ({| status := 422; body := JsonValidationErrors errors |}, log).
Proof.
  intros H. unfold route, post_api_reviews. now rewrite H.
Qed.

End ReviewRoute.

(** [str(uuid)] has 36 characters whatever the UUID. *)
Lemma str_uuid_length (u : UUID) : String.length (str_uuid u) = 36%nat.
Proof. reflexivity. Qed.

Lemma str_uuid_nonempty (u : UUID) : str_uuid u <> EmptyString.
Proof. intros H. pose proof (str_uuid_length u) as L. rewrite H in L. discriminate. Qed.

(** A body whose required fields are present and within their
    constraints builds a model holding the fields as sent, the rating
    rounded and the defaults filled in. *)
Lemma valid_body_accepted (b : ReviewBody) (p u : string) (r : Q) :
  json_productId b = Some p -> p <> EmptyString ->
  json_rating b = Some r -> (1 # 2 <= r)%Q -> (r <= 5)%Q ->
  json_userName b = Some u -> u <> EmptyString ->
  (forall s, json_content b = Some (Some s) -> (String.length s <= 2000)%nat) ->
  exists c,
    ReviewCreate_validate b
    = inr {| product_id := p; rating := validate_rating r; user_name := u;
             content := c; images := default (Some []) (json_images b) |} /\
    (json_content b = None -> c = Some EmptyString) /\
    (forall s, json_content b = Some s -> c = s).
Proof.
  intros Hp Hp' Hr Hlo Hhi Hu Hu' Hc.
  assert (Hcf : exists c, content_field (json_content b) = inr c /\
                  (json_content b = None -> c = Some EmptyString) /\
                  (forall s, json_content b = Some s -> c = s)).
  { unfold content_field. destruct (json_content b) as [[s|]|].
    - specialize (Hc s eq_refl). apply Nat.leb_le in Hc. rewrite Hc.
      exists (Some s). repeat split; [discriminate | now intros ? [= <-]].
    - exists None. repeat split; [discriminate | now intros ? [= <-]].
    - exists (Some EmptyString). repeat split; discriminate. }
  destruct Hcf as (c & Hcf & Hc1 & Hc2).
  exists c. split; [|split; assumption].
  apply ReviewCreate_validate_inr; simpl. repeat split.
  - now apply required_str_inr.
  - apply rating_field_inr. now exists r.
  - now apply required_str_inr.
  - exact Hcf.
  - unfold images_field. now destruct (json_images b).
Qed.

(** A rating strictly between 4.25 and 4.75 is stored as 4.5. *)
Lemma validate_rating_near_4_5 (r : Q) :
  (17 # 4 < r)%Q -> (r < 19 # 4)%Q -> (validate_rating r == 9 # 2)%Q.
Proof.
  intros Hlo Hhi. pose proof (round_nearest (r * 2)) as [H1 H2].
  assert (E : Py.round (r * 2) = 9).
  { assert (L : (inject_Z 8 < inject_Z (Py.round (r * 2)))%Q)
      by (change (inject_Z 8) with 8%Q; lra).
    assert (U : (inject_Z (Py.round (r * 2)) < inject_Z 10)%Q)
      by (change (inject_Z 10) with 10%Q; lra).
    rewrite <- Zlt_Qlt in L, U. lia. }
  unfold validate_rating. rewrite E. reflexivity.
Qed.

(** ** The review writer *)

(** C1.  A review submission that the review writer accepts carries a
    rating [r] with [0.5 <= r <= 5]; the rating held by the inserted
    document is [round(r * 2) / 2], which is [k * 0.5] for an integer [k]
    from 1 to 10, hence a multiple of 0.5 within [0.5, 5.0]. *)
Theorem stored_rating_is_half_step
    (environ : gmap string string) (uuid4 : UUID) (utcnow_isoformat : string)
    (db_insert_one : string -> string -> document -> InsertReply)
    (b : ReviewBody) (review : ReviewCreate) (log : list Call) :
  ReviewCreate_validate b = inr review ->
  exists (r : Q) (k : Z) (doc : document),
    json_rating b = Some r /\ (1 # 2 <= r)%Q /\ (r <= 5)%Q /\
    snd (post_api_reviews environ uuid4 utcnow_isoformat db_insert_one b log)
    = (log ++ [InsertOne (DB_NAME environ) REVIEWS_COL doc])%list /\
    doc_get doc "rating" = Some (VFloat (inject_Z (Py.round (r * 2)) / 2)%Q) /\
    1 <= k <= 10 /\
    (inject_Z (Py.round (r * 2)) / 2 == inject_Z k * (1 # 2))%Q /\
    (1 # 2 <= inject_Z (Py.round (r * 2)) / 2)%Q /\
    (inject_Z (Py.round (r * 2)) / 2 <= 5)%Q.
Proof.
  intros Hv.
  pose proof (proj1 (ReviewCreate_validate_inr b review) Hv) as (_ & Hr & _).
  apply rating_field_inr in Hr as (r & Hjr & Hlo & Hhi & Hq).
  destruct (validate_rating_half_step r Hlo Hhi) as (k & Hk & _ & Hm & Hl & Hu).
  exists r, k, (new_review (str_uuid uuid4) (utcnow_isoformat ++ "Z") review).
  rewrite (post_api_reviews_accepted _ _ _ _ b review log Hv), create_review_log.
  repeat split; try assumption; try apply Hk.
  simpl. now rewrite Hq.
Qed.

(** C9.  When the doubled rating is an integer [m] plus exactly one half,
    the stored rating is the neighbour whose doubled value is even: [m / 2]
    for an even [m], [(m + 1) / 2] for an odd one.  So 1.25 is stored as
    1.0 and 1.75 as 2.0. *)
Theorem rating_tie_goes_to_even
    (environ : gmap string string) (uuid4 : UUID) (utcnow_isoformat : string)
    (db_insert_one : string -> string -> document -> InsertReply)
    (b : ReviewBody) (review : ReviewCreate) (log : list Call) (r : Q) (m : Z) :
  ReviewCreate_validate b = inr review ->
  json_rating b = Some r ->
  (r * 2 == inject_Z m + (1 # 2))%Q ->
  (exists (doc : document) (q : Q),
     snd (post_api_reviews environ uuid4 utcnow_isoformat db_insert_one b log)
     = (log ++ [InsertOne (DB_NAME environ) REVIEWS_COL doc])%list /\
     doc_get doc "rating" = Some (VFloat q) /\
     q = (inject_Z (if Z.even m then m else m + 1) / 2)%Q /\
     Z.even (if Z.even m then m else m + 1) = true) /\
  (validate_rating (5 # 4) == 1)%Q /\ (validate_rating (7 # 4) == 2)%Q.
Proof.
  intros Hv Hjr Htie. split; [|split; reflexivity].
  pose proof (proj1 (ReviewCreate_validate_inr b review) Hv) as (_ & Hr & _).
  apply rating_field_inr in Hr as (r' & Hjr' & _ & _ & Hq).
  assert (r' = r) as -> by congruence.
  destruct (round_tie (r * 2) m Htie) as [E Hev].
  exists (new_review (str_uuid uuid4) (utcnow_isoformat ++ "Z") review), (rating review).
  rewrite (post_api_reviews_accepted _ _ _ _ b review log Hv), create_review_log.
  repeat split.
  - rewrite Hq. unfold validate_rating. now rewrite E.
  - now rewrite <- E.
Qed.

(** C10.  Every document that the review handler inserts holds
    [userId = None]: the handler, run on any model, issues one insert whose
    document has it, and the route, run on any body, either leaves the
    backends alone or issues that insert; the body has no field that
    reaches [userId]. *)
Theorem inserted_userId_is_null
    (environ : gmap string string) (uuid4 : UUID) (utcnow_isoformat : string)
    (db_insert_one : string -> string -> document -> InsertReply) :
  (forall (review : ReviewCreate) (log : list Call),
     exists doc,
       snd (create_review environ uuid4 utcnow_isoformat db_insert_one review log)
       = (log ++ [InsertOne (DB_NAME environ) REVIEWS_COL doc])%list /\
       doc_get doc "userId" = Some VNone) /\
  (forall (b : ReviewBody) (log : list Call),
     snd (post_api_reviews environ uuid4 utcnow_isoformat db_insert_one b log) = log \/
     exists doc,
       snd (post_api_reviews environ uuid4 utcnow_isoformat db_insert_one b log)
       = (log ++ [InsertOne (DB_NAME environ) REVIEWS_COL doc])%list /\
       doc_get doc "userId" = Some VNone).
Proof.
  split.
  - intros review log. eexists. split; [apply create_review_log | reflexivity].
  - intros b log. destruct (ReviewCreate_validate b) as [errors|review] eqn:Hv.
    + left. now rewrite (post_api_reviews_rejected _ _ _ _ b errors log Hv).
    + right. eexists.
      rewrite (post_api_reviews_accepted _ _ _ _ b review log Hv).
      split; [apply create_review_log | reflexivity].
Qed.

(** C6.  A valid submission (non-empty [productId], [0.5 <= rating <= 5],
    non-empty [userName], a [content] of at most 2000 characters when
    given) makes the handler insert one document with exactly the twelve
    fields of [review_fields]: the generated [reviewId], the submitted
    [productId] and [userName], [userId = None], the rounded rating (4.5
    for any rating strictly between 4.25 and 4.75, among them 4.3), equal
    [createdAt] and [updatedAt], [helpful = 0], [helpfulUsers = []],
    [status = "active"], and [content = ""] and [images = []] when those
    were omitted.  When the insert of that document answers with an
    [inserted_id], the response is 200 with [success = true] and the
    generated, non-empty [reviewId]. *)
Theorem valid_review_is_stored
    (environ : gmap string string) (uuid4 : UUID) (utcnow_isoformat : string)
    (db_insert_one : string -> string -> document -> InsertReply)
    (b : ReviewBody) (log : list Call) (p u : string) (r : Q) :
  json_productId b = Some p -> p <> EmptyString ->
  json_rating b = Some r -> (1 # 2 <= r)%Q -> (r <= 5)%Q ->
  json_userName b = Some u -> u <> EmptyString ->
  (forall s, json_content b = Some (Some s) -> (String.length s <= 2000)%nat) ->
  exists doc : document,
    snd (post_api_reviews environ uuid4 utcnow_isoformat db_insert_one b log)
    = (log ++ [InsertOne (DB_NAME environ) REVIEWS_COL doc])%list /\
    map fst doc = review_fields /\
    doc_get doc "reviewId" = Some (VStr (str_uuid uuid4)) /\
    doc_get doc "productId" = Some (VStr p) /\
    doc_get doc "userId" = Some VNone /\
    doc_get doc "userName" = Some (VStr u) /\
    doc_get doc "rating" = Some (VFloat (validate_rating r)) /\
    ((17 # 4 < r)%Q -> (r < 19 # 4)%Q -> (validate_rating r == 9 # 2)%Q) /\
    doc_get doc "createdAt" = Some (VStr (utcnow_isoformat ++ "Z")) /\
    doc_get doc "updatedAt" = doc_get doc "createdAt" /\
    doc_get doc "helpful" = Some (VInt 0) /\
    doc_get doc "helpfulUsers" = Some (VList []) /\
    doc_get doc "status" = Some (VStr "active") /\
    (json_content b = None -> doc_get doc "content" = Some (VStr EmptyString)) /\
    (json_images b = None -> doc_get doc "images" = Some (VList [])) /\
    str_uuid uuid4 <> EmptyString /\
    (forall oid,
       db_insert_one (DB_NAME environ) REVIEWS_COL doc = InsertOneResult (Some oid) ->
       fst (post_api_reviews environ uuid4 utcnow_isoformat db_insert_one b log)
       = {| status := 200;
            body := JsonReview
              {| ReviewResponse.success := true;
                 ReviewResponse.review_id := Some (str_uuid uuid4);
                 ReviewResponse.message := "리뷰가 등록되었습니다" |} |}).
Proof.
  intros Hp Hp' Hr Hlo Hhi Hu Hu' Hc.
  destruct (valid_body_accepted b p u r Hp Hp' Hr Hlo Hhi Hu Hu' Hc) as (c & Hv & Hc0 & _).
  set (review := {| product_id := p; rating := validate_rating r; user_name := u;
                    content := c; images := default (Some []) (json_images b) |}) in Hv.
  exists (new_review (str_uuid uuid4) (utcnow_isoformat ++ "Z") review).
  rewrite (post_api_reviews_accepted _ _ _ _ b review log Hv), create_review_log.
  repeat match goal with |- _ /\ _ => split end; try reflexivity.
  - apply validate_rating_near_4_5.
  - intros H. simpl. now rewrite (Hc0 H).
  - intros H. simpl. now rewrite H.
  - apply str_uuid_nonempty.
  - intros oid Hoid. rewrite create_review_outcome, Hoid. reflexivity.
Qed.

(** C7.  A body whose [productId] is the empty string does not validate:
    the route answers with the validation errors, [productId] among them,
    and the log of backend calls is the one it was given, whatever the
    database would have answered. *)
Theorem empty_productId_rejected_before_write
    (environ : gmap string string) (uuid4 : UUID) (utcnow_isoformat : string)
    (db_insert_one : string -> string -> document -> InsertReply)
    (b : ReviewBody) (log : list Call) :
  json_productId b = Some EmptyString ->
  exists errors : list ErrorDetail,
    ReviewCreate_validate b = inl errors /\
    In ("productId", string_too_short) errors /\
    post_api_reviews environ uuid4 utcnow_isoformat db_insert_one b log
    = ({| status := 422; body := JsonValidationErrors errors |}, log).
Proof.
  intros Hp.
  destruct (ReviewCreate_validate_inl b ("productId", string_too_short))
    as (errors & Hv & Hin).
  { left. unfold required_str. now rewrite Hp. }
  exists errors. repeat split; try assumption.
  now apply post_api_reviews_rejected.
Qed.

(** The insert answered with a result that carries no [inserted_id]: the
    handler returns [success = false] with its failure message. *)
Lemma create_review_unconfirmed
    (environ : gmap string string) (uuid4 : UUID) (utcnow_isoformat : string)
    (db_insert_one : string -> string -> document -> InsertReply)
    (review : ReviewCreate) (log : list Call) :
  db_insert_one (DB_NAME environ) REVIEWS_COL
    (new_review (str_uuid uuid4) (utcnow_isoformat ++ "Z") review) = InsertOneResult None ->
  fst (create_review environ uuid4 utcnow_isoformat db_insert_one review log)
  = Return {| ReviewResponse.success := false;
              ReviewResponse.review_id := None;
              ReviewResponse.message := "리뷰 저장에 실패했습니다" |}.
Proof. intros H. rewrite create_review_outcome, H. reflexivity. Qed.

(** C2.  When the driver raises instead of answering (the database cannot
    be reached, say), [create_review] has no handler around the insert: the
    exception leaves the handler, and the route answers 500 instead of a
    response with [success = false]. *)
Theorem create_review_propagates_insert_exception
    (environ : gmap string string) (uuid4 : UUID) (utcnow_isoformat : string)
    (review : ReviewCreate) (log : list Call) (text : string) :
  create_review environ uuid4 utcnow_isoformat (fun _ _ _ => InsertRaises text) review log
  = (Raise (BackendError text),
     (log ++ [InsertOne (DB_NAME environ) REVIEWS_COL
                (new_review (str_uuid uuid4) (utcnow_isoformat ++ "Z") review)])%list) /\
  fst (post_api_reviews Sample.env_s3 Sample.uuid Sample.now Sample.db_down
         Sample.review_p1 [])
  = {| status := 500; body := InternalServerError |}.
Proof. split; reflexivity. Qed.

(** C8 as the code has it.  On the review route a required field that is
    missing or breaks its constraint is answered by FastAPI with status 422
    and the list of validation errors, the error of that field among them;
    the handler does not run and no backend is called.  On the upload
    route, with storage configured, a product identifier that is missing
    or empty is answered with status 200, [success = false] and a
    message. *)
Theorem invalid_required_field_is_422
    (environ : gmap string string) (uuid4 : UUID) (utcnow_isoformat : string)
    (db_insert_one : string -> string -> document -> InsertReply)
    (set_iteration : gset string -> list string)
    (s3_put_object : option string -> string -> list byte -> string -> option string)
    (log : list Call) :
  (forall (b : ReviewBody) (e : ErrorDetail),
     invalid_required b e ->
     exists errors : list ErrorDetail,
       In e errors /\
       post_api_reviews environ uuid4 utcnow_isoformat db_insert_one b log
       = ({| status := 422; body := JsonValidationErrors errors |}, log)) /\
  (forall (file : UploadFile) (product_id : option string),
     is_Some (s3_client environ) ->
     product_id = None \/ product_id = Some EmptyString ->
     post_api_upload_image environ uuid4 set_iteration s3_put_object (Some file) product_id log
     = ({| status := 200;
           body := JsonImageUpload
             {| ImageUploadResponse.success := false;
                ImageUploadResponse.url := None;
                ImageUploadResponse.message := "상품 ID가 필요합니다" |} |}, log)).
Proof.
  split.
  - intros b e He.
    destruct (ReviewCreate_validate_inl b e (invalid_required_field b e He))
      as (errors & Hv & Hin).
    exists errors. split; [assumption|]. now apply post_api_reviews_rejected.
  - intros file product_id Hs3 Hpid.
    unfold post_api_upload_image, upload_image.
    rewrite (bool_decide_eq_true_2 _ Hs3).
    destruct Hpid as [-> | ->]; reflexivity.
Qed.

(** ** Strings *)

Lemma str_app_assoc (a b c : string) : (a ++ b) ++ c = a ++ b ++ c.
Proof.
  induction a as [|x a IH]; [reflexivity|].
  change (String x ((a ++ b) ++ c) = String x (a ++ b ++ c)). now rewrite IH.
Qed.

Lemma str_app_length (a b : string) :
  String.length (a ++ b) = (String.length a + String.length b)%nat.
Proof.
  induction a as [|x a IH]; [reflexivity|].
  change (S (String.length (a ++ b)) = S (String.length a + String.length b)).
  now rewrite IH.
Qed.

Lemma drop_str_app (a b : string) : Py.drop_str (String.length a) (a ++ b) = b.
Proof. induction a as [|x a IH]; [now destruct b|]. exact IH. Qed.

Lemma ends_with_app (a suffix : string) : ends_with suffix (a ++ suffix) = true.
Proof.
  unfold ends_with. rewrite str_app_length.
  replace (String.length a + String.length suffix - String.length suffix)%nat
    with (String.length a) by lia.
  rewrite drop_str_app. apply String.eqb_refl.
Qed.

Lemma contains_app_l (sub a b : string) : contains sub b -> contains sub (a ++ b).
Proof.
  intros (pre & post & ->). exists (a ++ pre), post. now rewrite str_app_assoc.
Qed.

Lemma contains_app_r (sub a b : string) : contains sub a -> contains sub (a ++ b).
Proof.
  intros (pre & post & ->). exists pre, (post ++ b).
  now rewrite !str_app_assoc.
Qed.

Lemma contains_refl (s : string) : contains s s.
Proof.
  exists EmptyString, EmptyString. change (s = s ++ EmptyString).
  induction s as [|x s IH]; [reflexivity|].
  change (String x s = String x (s ++ EmptyString)). now rewrite <- IH.
Qed.

(** Every member of a list occurs in the joined string. *)
Lemma join_contains (sep x : string) (l : list string) :
  In x l -> contains x (Py.join sep l).
Proof.
  induction l as [|y l IH]; [intros []|].
  intros [-> | Hin].
  - destruct l as [|z l]; [apply contains_refl|].
    change (contains x (x ++ sep ++ Py.join sep (z :: l))).
    apply contains_app_r, contains_refl.
  - destruct l as [|z l]; [destruct Hin|].
    change (contains x (y ++ sep ++ Py.join sep (z :: l))).
    apply contains_app_l, contains_app_l, IH, Hin.
Qed.

(** ** The image uploader *)

Section UploadRoute.

Variable environ : gmap string string.
Variable uuid4 : UUID.
Variable set_iteration : gset string -> list string.
Variable s3_put_object : option string -> string -> list byte -> string -> option string.

Let upload := upload_image environ uuid4 set_iteration s3_put_object.

Lemma str_truthy_true (s : string) : s <> EmptyString -> Py.str_truthy s = true.
Proof. now destruct s. Qed.

Lemma too_large_true (contents : list byte) :
  (10 * 1024 * 1024 < Z.of_nat (length contents))%Z <-> too_large contents = true.
Proof. unfold too_large. symmetry. apply Z.ltb_lt. Qed.

Lemma too_large_false (contents : list byte) :
  (Z.of_nat (length contents) <= 10 * 1024 * 1024)%Z <-> too_large contents = false.
Proof. unfold too_large. symmetry. apply Z.ltb_ge. Qed.

Lemma upload_not_configured (file : UploadFile) (product_id : string) (log : list Call) :
  s3_client environ = None ->
  upload file product_id log
  = (Raise (HTTPException 500 "S3 설정이 되어있지 않습니다"), log).
Proof.
  intros H. unfold upload, upload_image. rewrite H.
  rewrite bool_decide_eq_false_2; [reflexivity|]. now intros [? [=]].
Qed.

Lemma upload_no_product (file : UploadFile) (log : list Call) :
  is_Some (s3_client environ) ->
  upload file EmptyString log
  = (Return {| ImageUploadResponse.success := false;
               ImageUploadResponse.url := None;
               ImageUploadResponse.message := "상품 ID가 필요합니다" |}, log).
Proof.
  intros H. unfold upload, upload_image.
  now rewrite (bool_decide_eq_true_2 _ H).
Qed.

Lemma upload_bad_extension (file : UploadFile) (product_id : string) (log : list Call) :
  is_Some (s3_client environ) -> product_id <> EmptyString ->
  file_ext_of file ∉ allowed_extensions ->
  upload file product_id log
  = (Return {| ImageUploadResponse.success := false;
               ImageUploadResponse.url := None;
               ImageUploadResponse.message :=
                 "허용되지 않는 파일 형식입니다. ("
                   ++ Py.join ", " (set_iteration allowed_extensions) ++ ")" |}, log).
Proof.
  intros H Hp He. unfold upload, upload_image.
  rewrite (bool_decide_eq_true_2 _ H), (str_truthy_true _ Hp).
  fold (file_ext_of file). now rewrite (bool_decide_eq_true_2 _ He).
Qed.

Lemma upload_too_large (file : UploadFile) (product_id : string) (log : list Call) :
  is_Some (s3_client environ) -> product_id <> EmptyString ->
  file_ext_of file ∈ allowed_extensions ->
  too_large (file_contents file) = true ->
  upload file product_id log
  = (Return {| ImageUploadResponse.success := false;
               ImageUploadResponse.url := None;
               ImageUploadResponse.message := "파일 크기는 10MB 이하여야 합니다" |}, log).
Proof.
  intros H Hp He Hl. unfold upload, upload_image.
  rewrite (bool_decide_eq_true_2 _ H), (str_truthy_true _ Hp).
  fold (file_ext_of file).
  rewrite bool_decide_eq_false_2 by (intros Hn; now apply Hn).
  now rewrite Hl.
Qed.

(** Past the four checks the handler issues one [put_object] and answers
    by its outcome. *)
Lemma upload_validated (file : UploadFile) (product_id : string) (log : list Call) :
  is_Some (s3_client environ) -> product_id <> EmptyString ->
  file_ext_of file ∈ allowed_extensions ->
  too_large (file_contents file) = false ->
  upload file product_id log
  = (match
       s3_put_object (AWS_S3_BUCKET_NAME environ) (s3_key_of uuid4 file product_id)
         (file_contents file) (Py.str_or (file_content_type file) "image/jpeg")
     with
     | None =>
         Return {| ImageUploadResponse.success := true;
                   ImageUploadResponse.url :=
                     Some ("https://" ++ Py.fmt (AWS_S3_BUCKET_NAME environ) ++ ".s3."
                             ++ AWS_S3_REGION environ ++ ".amazonaws.com/"
                             ++ s3_key_of uuid4 file product_id);
                   ImageUploadResponse.message := "업로드 완료" |}
     | Some text =>
         Return {| ImageUploadResponse.success := false;
                   ImageUploadResponse.url := None;
                   ImageUploadResponse.message := "업로드 실패: " ++ text |}
     end,
     (log ++ [PutObject (AWS_S3_BUCKET_NAME environ) (s3_key_of uuid4 file product_id)
                (file_contents file) (Py.str_or (file_content_type file) "image/jpeg")])%list).
Proof.
  intros H Hp He Hl. unfold upload, upload_image.
  rewrite (bool_decide_eq_true_2 _ H), (str_truthy_true _ Hp).
  fold (file_ext_of file).
  rewrite bool_decide_eq_false_2 by (intros Hn; now apply Hn).
  rewrite Hl. cbn [negb].
  unfold try_except, mbind, M_bind, put_object, s3_key_of.
  destruct (s3_put_object _ _ _ _); reflexivity.
Qed.

End UploadRoute.

Lemma allowed_extensions_spec (ext : string) :
  ext ∈ allowed_extensions <->
  ext = ".jpg" \/ ext = ".jpeg" \/ ext = ".png" \/ ext = ".gif" \/ ext = ".webp".
Proof.
  unfold allowed_extensions.
  rewrite !elem_of_union, !elem_of_singleton. tauto.
Qed.

(** C3.  [upload_image] applies its checks in a fixed order; the first one
    that fails decides the answer and the log of backend calls is left as
    it was.  (1) Without a storage client every call raises the
    configuration error, an [HTTPException] of status 500, whatever the
    file and the product identifier.  (2) Else an empty product identifier
    gives [success = false].  (3) Else an extension that, put in lower
    case, is none of .jpg, .jpeg, .png, .gif, .webp gives [success = false]
    with the format message, in which each allowed extension occurs; the
    bytes of the file play no part.  (4) Else more than 10 MiB of content
    gives [success = false] with the size message. *)
Theorem upload_image_checks_in_order
    (environ : gmap string string) (uuid4 : UUID)
    (set_iteration : gset string -> list string)
    (s3_put_object : option string -> string -> list byte -> string -> option string)
    (file : UploadFile) (product_id : string) (log : list Call) :
  set_iteration allowed_extensions ≡ₚ elements allowed_extensions ->
  (s3_client environ = None ->
     upload_image environ uuid4 set_iteration s3_put_object file product_id log
     = (Raise (HTTPException 500 "S3 설정이 되어있지 않습니다"), log)) /\
  (is_Some (s3_client environ) -> product_id = EmptyString ->
     upload_image environ uuid4 set_iteration s3_put_object file product_id log
     = (Return {| ImageUploadResponse.success := false;
                  ImageUploadResponse.url := None;
                  ImageUploadResponse.message := "상품 ID가 필요합니다" |}, log)) /\
  (is_Some (s3_client environ) -> product_id <> EmptyString ->
     ~ (file_ext_of file = ".jpg" \/ file_ext_of file = ".jpeg" \/ file_ext_of file = ".png"
        \/ file_ext_of file = ".gif" \/ file_ext_of file = ".webp") ->
     exists msg : string,
       upload_image environ uuid4 set_iteration s3_put_object file product_id log
       = (Return {| ImageUploadResponse.success := false;
                    ImageUploadResponse.url := None;
                    ImageUploadResponse.message := msg |}, log) /\
       msg = "허용되지 않는 파일 형식입니다. ("
               ++ Py.join ", " (set_iteration allowed_extensions) ++ ")" /\
       contains ".jpg" msg /\ contains ".jpeg" msg /\ contains ".png" msg /\
       contains ".gif" msg /\ contains ".webp" msg) /\
  (is_Some (s3_client environ) -> product_id <> EmptyString ->
     file_ext_of file = ".jpg" \/ file_ext_of file = ".jpeg" \/ file_ext_of file = ".png"
       \/ file_ext_of file = ".gif" \/ file_ext_of file = ".webp" ->
     (10 * 1024 * 1024 < Z.of_nat (length (file_contents file)))%Z ->
     upload_image environ uuid4 set_iteration s3_put_object file product_id log
     = (Return {| ImageUploadResponse.success := false;
                  ImageUploadResponse.url := None;
                  ImageUploadResponse.message := "파일 크기는 10MB 이하여야 합니다" |}, log)).
Proof.
  intros Hperm. repeat split.
  - apply upload_not_configured.
  - intros H ->. now apply upload_no_product.
  - intros H Hp He. eexists. split; [|split; [reflexivity|]].
    + apply upload_bad_extension; try assumption.
      now rewrite allowed_extensions_spec.
    + assert (Hin : forall e, e ∈ allowed_extensions ->
                contains e ("허용되지 않는 파일 형식입니다. ("
                  ++ Py.join ", " (set_iteration allowed_extensions) ++ ")")).
      { intros e Hel. apply contains_app_l, contains_app_r, join_contains.
        apply list_elem_of_In. rewrite Hperm. now apply elem_of_elements. }
      repeat split; apply Hin, allowed_extensions_spec; tauto.
  - intros H Hp He Hl. apply upload_too_large; try assumption.
    + now apply allowed_extensions_spec.
    + now apply too_large_true.
Qed.

(** C4.  A request that passed the four checks and whose [put_object]
    raises an exception with text [text] is answered by a returned
    response with [success = false] and the message "업로드 실패: "
    followed by [text]; nothing is raised, so the route answers 200. *)
Theorem upload_storage_error_is_reported
    (environ : gmap string string) (uuid4 : UUID)
    (set_iteration : gset string -> list string)
    (s3_put_object : option string -> string -> list byte -> string -> option string)
    (file : UploadFile) (product_id : string) (log : list Call) (text : string) :
  is_Some (s3_client environ) -> product_id <> EmptyString ->
  file_ext_of file ∈ allowed_extensions ->
  (Z.of_nat (length (file_contents file)) <= 10 * 1024 * 1024)%Z ->
  s3_put_object (AWS_S3_BUCKET_NAME environ) (s3_key_of uuid4 file product_id)
    (file_contents file) (Py.str_or (file_content_type file) "image/jpeg") = Some text ->
  fst (upload_image environ uuid4 set_iteration s3_put_object file product_id log)
  = Return {| ImageUploadResponse.success := false;
              ImageUploadResponse.url := None;
              ImageUploadResponse.message := "업로드 실패: " ++ text |} /\
  contains text ("업로드 실패: " ++ text) /\
  fst (post_api_upload_image environ uuid4 set_iteration s3_put_object
         (Some file) (Some product_id) log)
  = {| status := 200;
       body := JsonImageUpload
         {| ImageUploadResponse.success := false;
            ImageUploadResponse.url := None;
            ImageUploadResponse.message := "업로드 실패: " ++ text |} |}.
Proof.
  intros H Hp He Hl Hput.
  apply too_large_false in Hl.
  pose proof (upload_validated environ uuid4 set_iteration s3_put_object
                file product_id log H Hp He Hl) as Hrun.
  rewrite Hput in Hrun.
  repeat split.
  - now rewrite Hrun.
  - apply contains_app_l, contains_refl.
  - unfold post_api_upload_image.
    change (default EmptyString (Some product_id)) with product_id. now rewrite Hrun.
Qed.

(** C5 as the code has it.  With storage configured, a non-empty product
    identifier and an allowed extension: more than 10 MiB of content is
    answered with the size message and nothing is written; at most 10 MiB
    whose [put_object] succeeds is answered with [success = true] and the
    URL https://{bucket}.s3.{region}.amazonaws.com/reviews/{product
    identifier}/{uuid}{extension}, where the extension is the one of the
    original name put in lower case.  That URL contains the product
    identifier, the bucket and the region and ends with the lower-cased
    extension.  (The bucket is printed as the f-string prints it, [Py.fmt].) *)
Theorem upload_size_limit_and_url
    (environ : gmap string string) (uuid4 : UUID)
    (set_iteration : gset string -> list string)
    (s3_put_object : option string -> string -> list byte -> string -> option string)
    (file : UploadFile) (product_id : string) (log : list Call) :
  is_Some (s3_client environ) -> product_id <> EmptyString ->
  file_ext_of file ∈ allowed_extensions ->
  ((10 * 1024 * 1024 < Z.of_nat (length (file_contents file)))%Z ->
     upload_image environ uuid4 set_iteration s3_put_object file product_id log
     = (Return {| ImageUploadResponse.success := false;
                  ImageUploadResponse.url := None;
                  ImageUploadResponse.message := "파일 크기는 10MB 이하여야 합니다" |}, log)) /\
  ((Z.of_nat (length (file_contents file)) <= 10 * 1024 * 1024)%Z ->
   s3_put_object (AWS_S3_BUCKET_NAME environ) (s3_key_of uuid4 file product_id)
     (file_contents file) (Py.str_or (file_content_type file) "image/jpeg") = None ->
   exists url : string,
     fst (upload_image environ uuid4 set_iteration s3_put_object file product_id log)
     = Return {| ImageUploadResponse.success := true;
                 ImageUploadResponse.url := Some url;
                 ImageUploadResponse.message := "업로드 완료" |} /\
     url = "https://" ++ Py.fmt (AWS_S3_BUCKET_NAME environ) ++ ".s3."
             ++ AWS_S3_REGION environ ++ ".amazonaws.com/reviews/" ++ product_id ++ "/"
             ++ str_uuid uuid4 ++ Py.lower (snd (OsPath.splitext (filename file))) /\
     contains product_id url /\
     contains (Py.fmt (AWS_S3_BUCKET_NAME environ)) url /\
     contains (AWS_S3_REGION environ) url /\
     ends_with (Py.lower (snd (OsPath.splitext (filename file)))) url = true).
Proof.
  intros H Hp He. split.
  - intros Hl. apply upload_too_large; try assumption. now apply too_large_true.
  - intros Hl Hput. apply too_large_false in Hl.
    pose proof (upload_validated environ uuid4 set_iteration s3_put_object
                  file product_id log H Hp He Hl) as Hrun.
    rewrite Hput in Hrun. eexists. split; [now rewrite Hrun|].
    unfold s3_key_of, file_ext_of.
    split; [reflexivity|]. repeat split.
    + do 6 apply contains_app_l. apply contains_app_r, contains_refl.
    + apply contains_app_l, contains_app_r, contains_refl.
    + do 3 apply contains_app_l. apply contains_app_r, contains_refl.
    + rewrite <- !str_app_assoc. apply ends_with_app.
Qed.

(** ** Worked examples *)

Lemma sample_image_size (name : string) (size : N) :
  Z.of_nat (length (file_contents (Sample.image name size))) = Z.of_N size.
Proof. unfold Sample.image; cbn [file_contents]. now rewrite repeat_length, N_nat_Z. Qed.

Lemma sample_s3_configured : is_Some (s3_client Sample.env_s3).
Proof. eexists. reflexivity. Qed.

(** C1 on the submission productId = "p1", rating = 4.3, userName =
    "alice". *)
Lemma stored_rating_is_half_step_witness :
  ReviewCreate_validate Sample.review_p1 = inr (Sample.accepted "p1" Sample.float_4_3) /\
  exists (r : Q) (k : Z) (doc : document),
    json_rating Sample.review_p1 = Some r /\
    snd (post_api_reviews Sample.env_s3 Sample.uuid Sample.now Sample.db_ok
           Sample.review_p1 [])
    = [InsertOne "ecommerce" "reviews" doc] /\
    doc_get doc "rating" = Some (VFloat (inject_Z (Py.round (r * 2)) / 2)%Q) /\
    1 <= k <= 10 /\
    (inject_Z (Py.round (r * 2)) / 2 == inject_Z k * (1 # 2))%Q.
Proof.
  split; [reflexivity|].
  destruct (stored_rating_is_half_step Sample.env_s3 Sample.uuid Sample.now Sample.db_ok
              Sample.review_p1 (Sample.accepted "p1" Sample.float_4_3) [] eq_refl)
    as (r & k & doc & H1 & _ & _ & H2 & H3 & H4 & H5 & _).
  exists r, k, doc. repeat split; try assumption; apply H4.
Defined.

(** C9 on the rating 1.25: twice it is 2 + 1/2, and 2 is even. *)
Lemma rating_tie_goes_to_even_witness :
  ReviewCreate_validate (Sample.body (Some "p1") (Some (5 # 4)))
  = inr (Sample.accepted "p1" (5 # 4)) /\
  ((5 # 4) * 2 == inject_Z 2 + (1 # 2))%Q /\
  exists (doc : document) (q : Q),
    snd (post_api_reviews Sample.env_s3 Sample.uuid Sample.now Sample.db_ok
           (Sample.body (Some "p1") (Some (5 # 4))) [])
    = [InsertOne "ecommerce" "reviews" doc] /\
    doc_get doc "rating" = Some (VFloat q) /\ q = (inject_Z 2 / 2)%Q.
Proof.
  split; [reflexivity|]. split; [reflexivity|].
  destruct (rating_tie_goes_to_even Sample.env_s3 Sample.uuid Sample.now Sample.db_ok
              (Sample.body (Some "p1") (Some (5 # 4))) (Sample.accepted "p1" (5 # 4)) []
              (5 # 4) 2 eq_refl eq_refl eq_refl)
    as ((doc & q & H1 & H2 & H3 & _) & _).
  exists doc, q. repeat split; assumption.
Defined.

(** C6 on the submission productId = "p1", rating = 4.3, userName =
    "alice", the insert confirmed. *)
Lemma valid_review_is_stored_witness :
  (1 # 2 <= Sample.float_4_3)%Q /\ (Sample.float_4_3 <= 5)%Q /\
  (17 # 4 < Sample.float_4_3)%Q /\ (Sample.float_4_3 < 19 # 4)%Q /\
  exists doc : document,
    snd (post_api_reviews Sample.env_s3 Sample.uuid Sample.now Sample.db_ok
           Sample.review_p1 [])
    = [InsertOne "ecommerce" "reviews" doc] /\
    map fst doc = review_fields /\
    doc_get doc "rating" = Some (VFloat (validate_rating Sample.float_4_3)) /\
    (validate_rating Sample.float_4_3 == 9 # 2)%Q /\
    doc_get doc "content" = Some (VStr EmptyString) /\
    doc_get doc "images" = Some (VList []) /\
    fst (post_api_reviews Sample.env_s3 Sample.uuid Sample.now Sample.db_ok
           Sample.review_p1 [])
    = {| status := 200;
         body := JsonReview
           {| ReviewResponse.success := true;
              ReviewResponse.review_id := Some "1b4e28ba-2fa1-11d2-883f-0016d3cca427";
              ReviewResponse.message := "리뷰가 등록되었습니다" |} |}.
Proof.
  assert (Hlo : (1 # 2 <= Sample.float_4_3)%Q) by (vm_compute; discriminate).
  assert (Hhi : (Sample.float_4_3 <= 5)%Q) by (vm_compute; discriminate).
  assert (Hlo' : (17 # 4 < Sample.float_4_3)%Q) by reflexivity.
  assert (Hhi' : (Sample.float_4_3 < 19 # 4)%Q) by reflexivity.
  repeat (split; [assumption|]).
  destruct (valid_review_is_stored Sample.env_s3 Sample.uuid Sample.now Sample.db_ok
              Sample.review_p1 [] "p1" "alice" Sample.float_4_3
              eq_refl ltac:(discriminate) eq_refl Hlo Hhi eq_refl ltac:(discriminate)
              ltac:(discriminate))
    as (doc & H1 & H2 & _ & _ & _ & _ & H3 & H4 & _ & _ & _ & _ & _ & H5 & H6 & _ & H7).
  exists doc.
  split; [exact H1|]. split; [exact H2|]. split; [exact H3|].
  split; [exact (H4 Hlo' Hhi')|].
  split; [exact (H5 eq_refl)|]. split; [exact (H6 eq_refl)|].
  exact (H7 "663238c0a7b1f2e4d5c6b7a8" eq_refl).
Defined.

(** C7 on a body whose productId is the empty string. *)
Lemma empty_productId_rejected_before_write_witness :
  json_productId (Sample.body (Some EmptyString) (Some Sample.float_4_3)) = Some EmptyString /\
  exists errors : list ErrorDetail,
    In ("productId", string_too_short) errors /\
    post_api_reviews Sample.env_s3 Sample.uuid Sample.now Sample.db_ok
      (Sample.body (Some EmptyString) (Some Sample.float_4_3)) []
    = ({| status := 422; body := JsonValidationErrors errors |}, []).
Proof.
  split; [reflexivity|].
  destruct (empty_productId_rejected_before_write Sample.env_s3 Sample.uuid Sample.now
              Sample.db_ok (Sample.body (Some EmptyString) (Some Sample.float_4_3)) [] eq_refl)
    as (errors & _ & H1 & H2).
  exists errors. split; assumption.
Defined.

(** C8: an empty [productId] on the review route is answered 422 with the
    validation errors; the answer is not a 200 response carrying
    [success = false]. *)
Lemma empty_productId_is_answered_422 :
  fst (post_api_reviews Sample.env_s3 Sample.uuid Sample.now Sample.db_ok
         (Sample.body (Some EmptyString) (Some Sample.float_4_3)) [])
  = {| status := 422; body := JsonValidationErrors [("productId", string_too_short)] |} /\
  fst (post_api_reviews Sample.env_s3 Sample.uuid Sample.now Sample.db_ok
         (Sample.body (Some "p1") (Some (11 # 2))) [])
  = {| status := 422; body := JsonValidationErrors [("rating", less_than_equal)] |} /\
  (forall r : ReviewResponse.t,
     fst (post_api_reviews Sample.env_s3 Sample.uuid Sample.now Sample.db_ok
            (Sample.body (Some EmptyString) (Some Sample.float_4_3)) [])
     <> {| status := 200; body := JsonReview r |}).
Proof. repeat split. intros r. discriminate. Qed.

(** C8 as the code has it, on a rating of 5.5 and on an upload without a
    product identifier. *)
Lemma invalid_required_field_is_422_witness :
  invalid_required (Sample.body (Some "p1") (Some (11 # 2))) ("rating", less_than_equal) /\
  (exists errors : list ErrorDetail,
     In ("rating", less_than_equal) errors /\
     post_api_reviews Sample.env_s3 Sample.uuid Sample.now Sample.db_ok
       (Sample.body (Some "p1") (Some (11 # 2))) []
     = ({| status := 422; body := JsonValidationErrors errors |}, [])) /\
  post_api_upload_image Sample.env_s3 Sample.uuid elements Sample.s3_ok
    (Some (Sample.image "photo.png" 1)) None []
  = ({| status := 200;
        body := JsonImageUpload
          {| ImageUploadResponse.success := false;
             ImageUploadResponse.url := None;
             ImageUploadResponse.message := "상품 ID가 필요합니다" |} |}, []).
Proof.
  assert (Hbad : invalid_required (Sample.body (Some "p1") (Some (11 # 2)))
                   ("rating", less_than_equal)).
  { apply (rating_too_large _ (11 # 2)); reflexivity. }
  destruct (invalid_required_field_is_422 Sample.env_s3 Sample.uuid Sample.now Sample.db_ok
              elements Sample.s3_ok []) as [H1 H2].
  split; [exact Hbad|]. split.
  - exact (H1 _ _ Hbad).
  - apply H2; [exact sample_s3_configured | now left].
Defined.

(** C3 on four requests, one per check: no credentials; no product
    identifier; a [.bmp] file; an 11 MiB [.png] file. *)
Lemma upload_image_checks_in_order_witness :
  upload_image Sample.env_no_s3 Sample.uuid elements Sample.s3_ok
    (Sample.image "photo.png" 1) "p1" []
  = (Raise (HTTPException 500 "S3 설정이 되어있지 않습니다"), []) /\
  upload_image Sample.env_s3 Sample.uuid elements Sample.s3_ok
    (Sample.image "photo.png" 1) EmptyString []
  = (Return {| ImageUploadResponse.success := false;
               ImageUploadResponse.url := None;
               ImageUploadResponse.message := "상품 ID가 필요합니다" |}, []) /\
  (exists msg : string,
     upload_image Sample.env_s3 Sample.uuid elements Sample.s3_ok
       (Sample.image "scan.BMP" 1) "p1" []
     = (Return {| ImageUploadResponse.success := false;
                  ImageUploadResponse.url := None;
                  ImageUploadResponse.message := msg |}, []) /\
     contains ".jpg" msg /\ contains ".jpeg" msg /\ contains ".png" msg /\
     contains ".gif" msg /\ contains ".webp" msg) /\
  (10 * 1024 * 1024
   < Z.of_nat (length (file_contents (Sample.image "photo.png" (11 * Sample.MiB)))))%Z /\
  upload_image Sample.env_s3 Sample.uuid elements Sample.s3_ok
    (Sample.image "photo.png" (11 * Sample.MiB)) "p1" []
  = (Return {| ImageUploadResponse.success := false;
               ImageUploadResponse.url := None;
               ImageUploadResponse.message := "파일 크기는 10MB 이하여야 합니다" |}, []).
Proof.
  assert (Hbig : (10 * 1024 * 1024
           < Z.of_nat (length (file_contents (Sample.image "photo.png" (11 * Sample.MiB)))))%Z).
  { rewrite sample_image_size. reflexivity. }
  split; [|split; [|split; [|split; [exact Hbig|]]]].
  - apply (upload_image_checks_in_order Sample.env_no_s3 Sample.uuid elements Sample.s3_ok
             (Sample.image "photo.png" 1) "p1" [] (reflexivity _)).
    reflexivity.
  - apply (upload_image_checks_in_order Sample.env_s3 Sample.uuid elements Sample.s3_ok
             (Sample.image "photo.png" 1) EmptyString [] (reflexivity _)).
    + exact sample_s3_configured.
    + reflexivity.
  - destruct (upload_image_checks_in_order Sample.env_s3 Sample.uuid elements Sample.s3_ok
                (Sample.image "scan.BMP" 1) "p1" [] (reflexivity _))
      as (_ & _ & H & _).
    destruct H as (msg & H1 & _ & H2).
    + exact sample_s3_configured.
    + discriminate.
    + change (file_ext_of (Sample.image "scan.BMP" 1)) with ".bmp".
      intros [H|[H|[H|[H|H]]]]; discriminate H.
    + exists msg. split; assumption.
  - apply (upload_image_checks_in_order Sample.env_s3 Sample.uuid elements Sample.s3_ok
             (Sample.image "photo.png" (11 * Sample.MiB)) "p1" [] (reflexivity _)).
    + exact sample_s3_configured.
    + discriminate.
    + right; right; left. reflexivity.
    + exact Hbig.
Defined.

(** C4 on a [.png] upload while the storage endpoint cannot be reached. *)
Lemma upload_storage_error_is_reported_witness :
  file_ext_of (Sample.image "photo.png" 1) ∈ allowed_extensions /\
  fst (upload_image Sample.env_s3 Sample.uuid elements Sample.s3_down
         (Sample.image "photo.png" 1) "p1" [])
  = Return {| ImageUploadResponse.success := false;
              ImageUploadResponse.url := None;
              ImageUploadResponse.message :=
                "업로드 실패: Could not connect to the endpoint URL" |}.
Proof.
  assert (Hext : file_ext_of (Sample.image "photo.png" 1) ∈ allowed_extensions).
  { apply allowed_extensions_spec. right; right; left. reflexivity. }
  split; [exact Hext|].
  apply (upload_storage_error_is_reported Sample.env_s3 Sample.uuid elements Sample.s3_down
           (Sample.image "photo.png" 1) "p1" [] "Could not connect to the endpoint URL").
  - exact sample_s3_configured.
  - discriminate.
  - exact Hext.
  - rewrite sample_image_size. discriminate.
  - reflexivity.
Defined.

(** C5: the extension of "photo.PNG" is ".PNG", and the URL returned for
    it ends in ".png"; it is not the claimed URL, whatever the generated
    name. *)
Lemma upper_case_extension_is_not_preserved :
  snd (OsPath.splitext "photo.PNG") = ".PNG" /\
  fst (upload_image Sample.env_s3 Sample.uuid elements Sample.s3_ok
         (Sample.image "photo.PNG" 1) "p1" [])
  = Return {| ImageUploadResponse.success := true;
              ImageUploadResponse.url :=
                Some ("https://review-images.s3.ap-northeast-2.amazonaws.com/reviews/p1/"
                        ++ "1b4e28ba-2fa1-11d2-883f-0016d3cca427.png");
              ImageUploadResponse.message := "업로드 완료" |} /\
  (forall name : string,
     "https://review-images.s3.ap-northeast-2.amazonaws.com/reviews/p1/"
       ++ "1b4e28ba-2fa1-11d2-883f-0016d3cca427.png"
     <> "https://review-images.s3.ap-northeast-2.amazonaws.com/reviews/p1/"
          ++ name ++ snd (OsPath.splitext "photo.PNG")).
Proof.
  split; [reflexivity|]. split; [reflexivity|].
  intros name H. apply (f_equal (ends_with ".PNG")) in H.
  change (snd (OsPath.splitext "photo.PNG")) with ".PNG" in H.
  rewrite <- str_app_assoc, ends_with_app in H. discriminate H.
Qed.

(** C5 as the code has it, on an 11 MiB and on a 9 MiB upload of
    "photo.PNG". *)
Lemma upload_size_limit_and_url_witness :
  (10 * 1024 * 1024
   < Z.of_nat (length (file_contents (Sample.image "photo.PNG" (11 * Sample.MiB)))))%Z /\
  upload_image Sample.env_s3 Sample.uuid elements Sample.s3_ok
    (Sample.image "photo.PNG" (11 * Sample.MiB)) "p1" []
  = (Return {| ImageUploadResponse.success := false;
               ImageUploadResponse.url := None;
               ImageUploadResponse.message := "파일 크기는 10MB 이하여야 합니다" |}, []) /\
  (Z.of_nat (length (file_contents (Sample.image "photo.PNG" (9 * Sample.MiB))))
   <= 10 * 1024 * 1024)%Z /\
  fst (upload_image Sample.env_s3 Sample.uuid elements Sample.s3_ok
         (Sample.image "photo.PNG" (9 * Sample.MiB)) "p1" [])
  = Return {| ImageUploadResponse.success := true;
              ImageUploadResponse.url :=
                Some ("https://review-images.s3.ap-northeast-2.amazonaws.com/reviews/p1/"
                        ++ "1b4e28ba-2fa1-11d2-883f-0016d3cca427.png");
              ImageUploadResponse.message := "업로드 완료" |}.
Proof.
  assert (Hbig : (10 * 1024 * 1024
           < Z.of_nat (length (file_contents (Sample.image "photo.PNG" (11 * Sample.MiB)))))%Z).
  { rewrite sample_image_size. reflexivity. }
  assert (Hsmall : (Z.of_nat (length (file_contents (Sample.image "photo.PNG" (9 * Sample.MiB))))
                    <= 10 * 1024 * 1024)%Z).
  { rewrite sample_image_size. discriminate. }
  assert (Hext : forall size, file_ext_of (Sample.image "photo.PNG" size) ∈ allowed_extensions).
  { intros size. apply allowed_extensions_spec. right; right; left. reflexivity. }
  split; [exact Hbig|]. split; [|split; [exact Hsmall|]].
  - apply (upload_size_limit_and_url Sample.env_s3 Sample.uuid elements Sample.s3_ok
             (Sample.image "photo.PNG" (11 * Sample.MiB)) "p1" []
             sample_s3_configured ltac:(discriminate) (Hext _)).
    exact Hbig.
  - destruct (upload_size_limit_and_url Sample.env_s3 Sample.uuid elements Sample.s3_ok
                (Sample.image "photo.PNG" (9 * Sample.MiB)) "p1" []
                sample_s3_configured ltac:(discriminate) (Hext _))
      as [_ H].
    destruct (H Hsmall eq_refl) as (url & H1 & H2 & _).
    rewrite H1, H2. reflexivity.
Defined.

(** ** Checks of the embedding on concrete values *)

Example splitext_plain : OsPath.splitext "photo.JPG" = ("photo", ".JPG").
Proof. reflexivity. Qed.

Example splitext_hidden_file : OsPath.splitext ".bashrc" = (".bashrc", EmptyString).
Proof. reflexivity. Qed.

Example splitext_last_component :
  OsPath.splitext "a.b/..c.tar.gz" = ("a.b/..c.tar", ".gz")
  /\ OsPath.splitext "a.b/c" = ("a.b/c", EmptyString).
Proof. split; reflexivity. Qed.

Example lower_extension : Py.lower ".JpEg" = ".jpeg".
Proof. reflexivity. Qed.

Example round_half_even :
  Py.round (1 # 2) = 0 /\ Py.round (3 # 2) = 2 /\ Py.round (5 # 2) = 2
  /\ Py.round (7 # 2) = 4 /\ Py.round (86 # 10) = 9.
Proof. repeat split. Qed.

Example str_uuid_sample : str_uuid Sample.uuid = "1b4e28ba-2fa1-11d2-883f-0016d3cca427".
Proof. reflexivity. Qed.

Example join_extensions : Py.join ", " [".jpg"; ".png"; ".gif"] = ".jpg, .png, .gif".
Proof. reflexivity. Qed.

(** * Further properties of the code *)

(** ** The rating validator *)

Lemma round_comp (x y : Q) : (x == y)%Q -> Py.round x = Py.round y.
Proof.
  intros E. unfold Py.round; cbv zeta.
  rewrite (Qfloor_comp x y E).
  assert (C : ((x - inject_Z (Qfloor y)) ?= (1 # 2))%Q
              = ((y - inject_Z (Qfloor y)) ?= (1 # 2))%Q).
  { apply Qcompare_comp; [now rewrite E | reflexivity]. }
  now rewrite C.
Qed.

Lemma round_inject_Z (n : Z) : Py.round (inject_Z n) = n.
Proof.
  destruct (round_cases (inject_Z n)) as [[H E]|[[H E]|[H E]]];
    rewrite Qfloor_Z in *; try exact E; lra.
Qed.

Lemma round_monotone (x y : Q) : (x <= y)%Q -> Py.round x <= Py.round y.
Proof.
  intros Hxy.
  destruct (Z_le_gt_dec (Py.round x) (Py.round y)) as [H|H]; [exact H|].
  pose proof (round_nearest x) as [_ Hx]. pose proof (round_nearest y) as [Hy _].
  assert (H1 : (inject_Z (Py.round y) + 1 <= inject_Z (Py.round x))%Q).
  { change 1%Q with (inject_Z 1). rewrite <- inject_Z_plus, <- Zle_Qle. lia. }
  assert (E : (x == y)%Q) by lra.
  rewrite (round_comp x y E) in H. lia.
Qed.

(** X1.  The stored rating is a nearest half step: no multiple of 0.5 is
    closer to the submitted rating. *)
Theorem validate_rating_is_nearest (r : Q) (j : Z) :
  (1 # 2 <= r)%Q -> (r <= 5)%Q ->
  (Qabs (validate_rating r - r) <= 1 # 4)%Q /\
  (Qabs (validate_rating r - r) <= Qabs (inject_Z j / 2 - r))%Q.
Proof.
  intros _ _. unfold validate_rating.
  pose proof (round_nearest (r * 2)) as [H1 H2].
  set (n := Py.round (r * 2)) in *.
  assert (En : (inject_Z n / 2 == inject_Z n * (1 # 2))%Q) by reflexivity.
  assert (Ej : (inject_Z j / 2 == inject_Z j * (1 # 2))%Q) by reflexivity.
  rewrite En, Ej.
  assert (Hq : (Qabs (inject_Z n * (1 # 2) - r) <= 1 # 4)%Q).
  { apply Qabs_case; intros; lra. }
  split; [exact Hq|].
  destruct (Z.eq_dec j n) as [->|Hne]; [apply Qle_refl|].
  apply Qle_trans with (1 # 4)%Q; [exact Hq|].
  destruct (Z_lt_le_dec j n) as [Hlt|Hge].
  - assert (H : (inject_Z j + 1 <= inject_Z n)%Q).
    { change 1%Q with (inject_Z 1). rewrite <- inject_Z_plus, <- Zle_Qle. lia. }
    apply Qabs_case; intros; lra.
  - assert (H : (inject_Z n + 1 <= inject_Z j)%Q).
    { change 1%Q with (inject_Z 1). rewrite <- inject_Z_plus, <- Zle_Qle. lia. }
    apply Qabs_case; intros; lra.
Qed.

(** X2.  Rounding is idempotent: a stored rating, submitted again, is stored
    unchanged. *)
Theorem validate_rating_idempotent (r : Q) :
  (1 # 2 <= r)%Q -> (r <= 5)%Q ->
  (1 # 2 <= validate_rating r)%Q /\ (validate_rating r <= 5)%Q /\
  (validate_rating (validate_rating r) == validate_rating r)%Q.
Proof.
  intros Hlo Hhi.
  destruct (validate_rating_half_step r Hlo Hhi) as (k & _ & _ & _ & H1 & H2).
  split; [exact H1|]. split; [exact H2|].
  unfold validate_rating at 1.
  assert (E : (validate_rating r * 2 == inject_Z (Py.round (r * 2)))%Q).
  { unfold validate_rating. field. }
  rewrite (round_comp _ _ E), round_inject_Z. reflexivity.
Qed.

(** X3.  Rounding keeps the order of ratings. *)
Theorem validate_rating_monotone (r1 r2 : Q) :
  (1 # 2 <= r1)%Q -> (r1 <= r2)%Q -> (r2 <= 5)%Q ->
  (validate_rating r1 <= validate_rating r2)%Q.
Proof.
  intros _ H _. unfold validate_rating.
  assert (Hr : Py.round (r1 * 2) <= Py.round (r2 * 2)) by (apply round_monotone; lra).
  rewrite Zle_Qle in Hr.
  assert (E1 : (inject_Z (Py.round (r1 * 2)) / 2 == inject_Z (Py.round (r1 * 2)) * (1 # 2))%Q)
    by reflexivity.
  assert (E2 : (inject_Z (Py.round (r2 * 2)) / 2 == inject_Z (Py.round (r2 * 2)) * (1 # 2))%Q)
    by reflexivity.
  rewrite E1, E2. lra.
Qed.

(** ** The request model and the review route *)




(** X6.  What is stored for the optional fields of an accepted body:
    [content] sent as a string is stored as sent, and omitted or [null] as
    the empty string; [images] sent as a list is stored as sent, in order,
    and omitted or [null] as the empty list. *)
Theorem optional_fields_are_normalised
    (environ : gmap string string) (uuid4 : UUID) (utcnow_isoformat : string)
    (db_insert_one : string -> string -> document -> InsertReply)
    (b : ReviewBody) (review : ReviewCreate) (log : list Call) :
  ReviewCreate_validate b = inr review ->
  exists doc : document,
    snd (post_api_reviews environ uuid4 utcnow_isoformat db_insert_one b log)
    = (log ++ [InsertOne (DB_NAME environ) REVIEWS_COL doc])%list /\
    doc_get doc "content" = Some (VStr (stored_content (json_content b))) /\
    doc_get doc "images" = Some (VList (stored_images (json_images b))).
Proof.
  intros Hv.
  exists (new_review (str_uuid uuid4) (utcnow_isoformat ++ "Z") review).
  rewrite (post_api_reviews_accepted _ _ _ _ b review log Hv), create_review_log.
  split; [reflexivity|].
  apply ReviewCreate_validate_inr in Hv as (_ & _ & _ & Hc & Hi).
  unfold content_field in Hc. unfold images_field in Hi. cbn.
  split.
  - destruct (json_content b) as [[s|]|].
    + destruct (String.length s <=? 2000)%nat; [|discriminate].
      injection Hc as <-. cbn. now destruct s.
    + now injection Hc as <-.
    + now injection Hc as <-.
  - destruct (json_images b) as [[l|]|].
    + injection Hi as <-. cbn. now destruct l.
    + now injection Hi as <-.
    + now injection Hi as <-.
Qed.

(** X7.  An insert that returns without an [inserted_id]: the route answers
    200 with [success = false], no [reviewId] and the failure message,
    after one attempt at the insert. *)
Theorem unconfirmed_insert_is_reported
    (environ : gmap string string) (uuid4 : UUID) (utcnow_isoformat : string)
    (db_insert_one : string -> string -> document -> InsertReply)
    (b : ReviewBody) (review : ReviewCreate) (log : list Call) :
  ReviewCreate_validate b = inr review ->
  db_insert_one (DB_NAME environ) REVIEWS_COL
    (new_review (str_uuid uuid4) (utcnow_isoformat ++ "Z") review) = InsertOneResult None ->
  post_api_reviews environ uuid4 utcnow_isoformat db_insert_one b log
  = ({| status := 200;
        body := JsonReview
          {| ReviewResponse.success := false;
             ReviewResponse.review_id := None;
             ReviewResponse.message := "리뷰 저장에 실패했습니다" |} |},
     (log ++ [InsertOne (DB_NAME environ) REVIEWS_COL
                (new_review (str_uuid uuid4) (utcnow_isoformat ++ "Z") review)])%list).
Proof.
  intros Hv Hins.
  rewrite (post_api_reviews_accepted _ _ _ _ b review log Hv).
  now rewrite create_review_outcome, create_review_log, Hins.
Qed.

(** X8.  Whatever the body and the driver, a 200 answer of the review route
    carries a [reviewId] exactly when [success] is true, and that
    [reviewId] is the one held by the document the request inserted. *)
Theorem returned_reviewId_is_the_stored_one
    (environ : gmap string string) (uuid4 : UUID) (utcnow_isoformat : string)
    (db_insert_one : string -> string -> document -> InsertReply)
    (b : ReviewBody) (log : list Call) (resp : ReviewResponse.t) :
  fst (post_api_reviews environ uuid4 utcnow_isoformat db_insert_one b log)
  = {| status := 200; body := JsonReview resp |} ->
  (ReviewResponse.success resp = true <-> is_Some (ReviewResponse.review_id resp)) /\
  (forall id : string,
     ReviewResponse.review_id resp = Some id ->
     exists doc : document,
       snd (post_api_reviews environ uuid4 utcnow_isoformat db_insert_one b log)
       = (log ++ [InsertOne (DB_NAME environ) REVIEWS_COL doc])%list /\
       doc_get doc "reviewId" = Some (VStr id)).
Proof.
  destruct (ReviewCreate_validate b) as [errors|review] eqn:Hv.
  - rewrite (post_api_reviews_rejected _ _ _ _ b errors log Hv). discriminate.
  - rewrite (post_api_reviews_accepted _ _ _ _ b review log Hv).
    rewrite create_review_outcome, create_review_log. cbn [fst snd].
    destruct (db_insert_one _ _ _) as [[oid|]|text]; intros [= <-]; cbn.
    + split; [split; [now eexists | reflexivity]|].
      intros id [= <-]. eexists. split; reflexivity.
    + split; [split; [discriminate | now intros [? [=]]]|]. intros id [=].
Qed.

(** ** Configuration and the image uploader *)

Lemma opt_truthy_true (o : option string) :
  Py.opt_truthy o = true <-> exists s, o = Some s /\ s <> EmptyString.
Proof.
  destruct o as [[|c t]|]; cbn; split.
  - discriminate.
  - intros (s & [= <-] & H). now destruct H.
  - intros _. now eexists.
  - reflexivity.
  - discriminate.
  - intros (s & [=] & _).
Qed.

(** X9.  The storage client exists exactly when both [AWS_ACCESS_KEY_ID] and
    [AWS_SECRET_ACCESS_KEY] are set to non-empty values; the bucket name
    and the region play no part. *)
Theorem s3_client_iff_credentials (environ : gmap string string) :
  is_Some (s3_client environ) <->
  (exists key, environ !! "AWS_ACCESS_KEY_ID" = Some key /\ key <> EmptyString) /\
  (exists secret, environ !! "AWS_SECRET_ACCESS_KEY" = Some secret /\ secret <> EmptyString).
Proof.
  unfold s3_client, AWS_ACCESS_KEY_ID, AWS_SECRET_ACCESS_KEY, getenv.
  rewrite <- !opt_truthy_true.
  destruct (Py.opt_truthy (environ !! "AWS_ACCESS_KEY_ID"));
  destruct (Py.opt_truthy (environ !! "AWS_SECRET_ACCESS_KEY")); cbn [andb]; split.
  - intros _. now split.
  - intros _. now eexists.
  - intros [? [=]].
  - intros [_ [=]].
  - intros [? [=]].
  - intros [[=] _].
  - intros [? [=]].
  - intros [[=] _].
Qed.

(** X10.  With either credential unset or empty, every upload request that
    carries a file is answered 500 with the configuration message and no
    backend is called, whatever the file, the product identifier and the
    other settings. *)
Theorem upload_without_credentials_is_500
    (environ : gmap string string) (uuid4 : UUID)
    (set_iteration : gset string -> list string)
    (s3_put_object : option string -> string -> list byte -> string -> option string)
    (file : UploadFile) (product_id : option string) (log : list Call) :
  environ !! "AWS_ACCESS_KEY_ID" = None \/ environ !! "AWS_ACCESS_KEY_ID" = Some EmptyString \/
  environ !! "AWS_SECRET_ACCESS_KEY" = None \/
  environ !! "AWS_SECRET_ACCESS_KEY" = Some EmptyString ->
  post_api_upload_image environ uuid4 set_iteration s3_put_object (Some file) product_id log
  = ({| status := 500; body := JsonDetail "S3 설정이 되어있지 않습니다" |}, log).
Proof.
  intros H.
  assert (Hnone : s3_client environ = None).
  { destruct (s3_client environ) as [c|] eqn:Hc; [|reflexivity].
    assert (Hs : is_Some (s3_client environ)) by (rewrite Hc; now eexists).
    apply s3_client_iff_credentials in Hs as [(k & Hk & Hk') (s & Hs & Hs')].
    destruct H as [H|[H|[H|H]]]; congruence. }
  unfold post_api_upload_image.
  now rewrite (upload_not_configured environ uuid4 set_iteration s3_put_object
                 file (default EmptyString product_id) log Hnone).
Qed.

(** X11.  A response returned by [upload_image] has [success = true] exactly
    when the product identifier is non-empty, the lower-cased extension is
    allowed, the content has at most 10 MiB and [put_object] did not raise;
    it carries a URL exactly when [success] is true. *)
Theorem upload_success_iff
    (environ : gmap string string) (uuid4 : UUID)
    (set_iteration : gset string -> list string)
    (s3_put_object : option string -> string -> list byte -> string -> option string)
    (file : UploadFile) (product_id : string) (log : list Call)
    (resp : ImageUploadResponse.t) :
  fst (upload_image environ uuid4 set_iteration s3_put_object file product_id log)
  = Return resp ->
  (ImageUploadResponse.success resp = true <->
     product_id <> EmptyString /\
     file_ext_of file ∈ allowed_extensions /\
     (Z.of_nat (length (file_contents file)) <= 10 * 1024 * 1024)%Z /\
     s3_put_object (AWS_S3_BUCKET_NAME environ) (s3_key_of uuid4 file product_id)
       (file_contents file) (Py.str_or (file_content_type file) "image/jpeg") = None) /\
  (is_Some (ImageUploadResponse.url resp) <-> ImageUploadResponse.success resp = true).
Proof.
  destruct (s3_client environ) as [c|] eqn:Hc.
  2:{ rewrite (upload_not_configured environ uuid4 set_iteration s3_put_object
                 file product_id log Hc). discriminate. }
  assert (Hs : is_Some (s3_client environ)) by (rewrite Hc; now eexists).
  destruct (decide (product_id = EmptyString)) as [->|Hp].
  { rewrite (upload_no_product environ uuid4 set_iteration s3_put_object file log Hs).
    intros [= <-]; cbn. split; split; try discriminate.
    - now intros [H _].
    - now intros [? [=]]. }
  destruct (decide (file_ext_of file ∈ allowed_extensions)) as [He|He].
  2:{ rewrite (upload_bad_extension environ uuid4 set_iteration s3_put_object
                 file product_id log Hs Hp He).
      intros [= <-]; cbn. split; split; try discriminate.
      - now intros (_ & H & _).
      - now intros [? [=]]. }
  destruct (too_large (file_contents file)) eqn:Hl.
  { rewrite (upload_too_large environ uuid4 set_iteration s3_put_object
               file product_id log Hs Hp He Hl).
    apply too_large_true in Hl.
    intros [= <-]; cbn. split; split; try discriminate.
    - intros (_ & _ & H & _). lia.
    - now intros [? [=]]. }
  rewrite (upload_validated environ uuid4 set_iteration s3_put_object
             file product_id log Hs Hp He Hl).
  apply too_large_false in Hl. cbn [fst].
  destruct (s3_put_object _ _ _ _) as [text|] eqn:Hput; intros [= <-]; cbn.
  - split; split; try discriminate.
    + now intros (_ & _ & _ & [=]).
    + now intros [? [=]].
  - split; split; try reflexivity; try tauto. now eexists.
Qed.

(** X12.  [upload_image] calls the storage at most once.  When the four checks
    pass it issues one [put_object], whether or not that call succeeds,
    with the bucket of the environment, the key
    reviews/{product identifier}/{uuid}{extension}, the bytes of the file
    unchanged and the declared content type ("image/jpeg" when none or an
    empty one was declared); the extension in the key is one of the five
    allowed ones.  When a check fails it calls nothing. *)
Theorem upload_issues_at_most_one_put
    (environ : gmap string string) (uuid4 : UUID)
    (set_iteration : gset string -> list string)
    (s3_put_object : option string -> string -> list byte -> string -> option string)
    (file : UploadFile) (product_id : string) (log : list Call) :
  (is_Some (s3_client environ) /\ product_id <> EmptyString /\
   file_ext_of file ∈ allowed_extensions /\
   (Z.of_nat (length (file_contents file)) <= 10 * 1024 * 1024)%Z ->
   In (file_ext_of file) [".jpg"; ".jpeg"; ".png"; ".gif"; ".webp"] /\
   snd (upload_image environ uuid4 set_iteration s3_put_object file product_id log)
     = (log ++ [PutObject (environ !! "AWS_S3_BUCKET_NAME")
                  ("reviews/" ++ product_id ++ "/" ++ str_uuid uuid4 ++ file_ext_of file)
                  (file_contents file)
                  (match file_content_type file with
                   | Some (String c t) => String c t
                   | _ => "image/jpeg"
                   end)])%list) /\
  (~ (is_Some (s3_client environ) /\ product_id <> EmptyString /\
      file_ext_of file ∈ allowed_extensions /\
      (Z.of_nat (length (file_contents file)) <= 10 * 1024 * 1024)%Z) ->
   snd (upload_image environ uuid4 set_iteration s3_put_object file product_id log) = log).
Proof.
  split.
  - intros (Hs & Hp & He & Hl). apply too_large_false in Hl.
    rewrite (upload_validated environ uuid4 set_iteration s3_put_object
               file product_id log Hs Hp He Hl).
    split.
    + apply allowed_extensions_spec in He.
      destruct He as [E|[E|[E|[E|E]]]]; rewrite E; cbn; tauto.
    + cbn [snd]. unfold s3_key_of, AWS_S3_BUCKET_NAME, getenv, Py.str_or.
      now destruct (file_content_type file) as [[|c t]|].
  - intros Hn.
    destruct (s3_client environ) as [c|] eqn:Hc.
    2:{ now rewrite (upload_not_configured environ uuid4 set_iteration s3_put_object
                       file product_id log Hc). }
    assert (Hs : is_Some (s3_client environ)) by (rewrite Hc; now eexists).
    destruct (decide (product_id = EmptyString)) as [->|Hp].
    { now rewrite (upload_no_product environ uuid4 set_iteration s3_put_object file log Hs). }
    destruct (decide (file_ext_of file ∈ allowed_extensions)) as [He|He].
    2:{ now rewrite (upload_bad_extension environ uuid4 set_iteration s3_put_object
                       file product_id log Hs Hp He). }
    destruct (too_large (file_contents file)) eqn:Hl.
    { now rewrite (upload_too_large environ uuid4 set_iteration s3_put_object
                     file product_id log Hs Hp He Hl). }
    apply too_large_false in Hl. destruct Hn. auto.
Qed.

(** ** The extension of the uploaded file's name *)

Lemma take_drop_str (n : nat) (p : string) : Py.take_str n p ++ Py.drop_str n p = p.
Proof.
  revert p. induction n as [|n IH]; intros p; [reflexivity|].
  destruct p as [|c p]; [reflexivity|].
  change (String c (Py.take_str n p ++ Py.drop_str n p) = String c p). now rewrite IH.
Qed.

Lemma drop_str_add (n m : nat) (s : string) :
  Py.drop_str (n + m) s = Py.drop_str m (Py.drop_str n s).
Proof.
  revert s. induction n as [|n IH]; intros s; [reflexivity|].
  destruct s as [|c s]; [now destruct m | apply IH].
Qed.

Lemma occurs_drop_str (c : ascii) (n : nat) (s : string) :
  occurs c s = false -> occurs c (Py.drop_str n s) = false.
Proof.
  revert s. induction n as [|n IH]; intros s H; [exact H|].
  destruct s as [|a s]; [reflexivity|].
  cbn in H. apply orb_false_iff in H as [_ H]. now apply IH.
Qed.

(** [rfind]: either the character does not occur and the answer is [-1],
    or the answer is an index holding the character with no occurrence
    after it. *)
Lemma rfind_from_spec (c : ascii) (s : string) (i : Z) :
  0 <= i ->
  (Py.rfind_from c s i = -1 /\ occurs c s = false) \/
  (i <= Py.rfind_from c s i < i + Z.of_nat (String.length s) /\
   exists t, Py.drop_str (Z.to_nat (Py.rfind_from c s i - i)) s = String c t /\
             occurs c t = false).
Proof.
  revert i. induction s as [|a s IH]; intros i Hi; [now left|].
  cbn [Py.rfind_from String.length occurs].
  destruct (IH (i + 1) ltac:(lia)) as [[Hr Ho]|[Hr (t & Ht & Ho)]].
  - rewrite Hr. cbn [Z.leb Z.compare].
    destruct (Ascii.eqb_spec a c) as [->|Hne].
    + right. split; [lia|]. exists s. rewrite Z.sub_diag. now split.
    + left. now split.
  - destruct (Z.leb_spec 0 (Py.rfind_from c s (i + 1))) as [_|Hneg]; [|lia].
    right. split; [lia|]. exists t. split; [|exact Ho].
    replace (Z.to_nat (Py.rfind_from c s (i + 1) - i))
      with (S (Z.to_nat (Py.rfind_from c s (i + 1) - (i + 1)))) by lia.
    exact Ht.
Qed.

Lemma rfind_spec (p : string) (c : ascii) :
  (Py.rfind p c = -1 /\ occurs c p = false) \/
  (0 <= Py.rfind p c /\
   exists t, Py.drop_str (Z.to_nat (Py.rfind p c)) p = String c t /\ occurs c t = false).
Proof.
  unfold Py.rfind.
  destruct (rfind_from_spec c p 0 ltac:(lia)) as [H|[Hr (t & Ht & Ho)]]; [now left|].
  right. split; [lia|]. exists t. now rewrite Z.sub_0_r in Ht.
Qed.

(** The loop runs to its end: with the fuel [splitext] gives it, it
    answers by whether the characters before the last period are all
    periods. *)
Lemma skip_leading_dots_spec (p : string) (dotIndex : Z) (fuel : nat) (filenameIndex : Z) :
  (Z.to_nat (dotIndex - filenameIndex) < fuel)%nat ->
  OsPath.skip_leading_dots p filenameIndex dotIndex fuel
  = if all_dots p filenameIndex (Z.to_nat (dotIndex - filenameIndex))
    then (p, EmptyString)
    else (Py.take_str (Z.to_nat dotIndex) p, Py.drop_str (Z.to_nat dotIndex) p).
Proof.
  revert filenameIndex. induction fuel as [|fuel IH]; intros f Hf; [lia|].
  cbn [OsPath.skip_leading_dots].
  destruct (Z.ltb_spec f dotIndex) as [Hlt|Hge].
  - replace (Z.to_nat (dotIndex - f)) with (S (Z.to_nat (dotIndex - (f + 1)))) by lia.
    cbn [all_dots].
    destruct (String.get (Z.to_nat f) p) as [ch|]; [|reflexivity].
    destruct (Ascii.eqb_spec ch "."%char) as [->|Hne].
    + apply IH. lia.
    + destruct ch as [[] [] [] [] [] [] [] []]; try reflexivity. now destruct Hne.
  - replace (Z.to_nat (dotIndex - f)) with 0%nat by lia. reflexivity.
Qed.

(** [splitext] by cases. *)
Lemma splitext_spec (p : string) :
  (no_extension p /\ OsPath.splitext p = (p, EmptyString)) \/
  (~ no_extension p /\ Py.rfind p "/"%char < Py.rfind p "."%char /\
   OsPath.splitext p
   = (Py.take_str (Z.to_nat (Py.rfind p "."%char)) p,
      Py.drop_str (Z.to_nat (Py.rfind p "."%char)) p)).
Proof.
  unfold OsPath.splitext, no_extension; cbv zeta.
  destruct (Z.ltb_spec (Py.rfind p "/"%char) (Py.rfind p "."%char)) as [Hlt|Hge].
  - rewrite skip_leading_dots_spec by lia.
    replace (Py.rfind p "."%char - (Py.rfind p "/"%char + 1))
      with (Py.rfind p "."%char - Py.rfind p "/"%char - 1) by lia.
    destruct (all_dots _ _ _) eqn:Hd.
    + left. split; [now right | reflexivity].
    + right. split; [|split; [exact Hlt | reflexivity]].
      intros [H|H]; [lia | discriminate].
  - left. split; [now left | reflexivity].
Qed.

(** X14.  [os.path.splitext] as the handler uses it: root and extension put
    together give the name back; the extension is empty exactly for a name
    without one, and else it is a period followed by characters among
    which there is neither a period nor a slash. *)
Theorem splitext_root_and_extension (p : string) :
  fst (OsPath.splitext p) ++ snd (OsPath.splitext p) = p /\
  (snd (OsPath.splitext p) = EmptyString <-> no_extension p) /\
  (snd (OsPath.splitext p) = EmptyString \/
   exists t, snd (OsPath.splitext p) = String "." t /\
             occurs "." t = false /\ occurs "/" t = false).
Proof.
  destruct (splitext_spec p) as [[Hno ->]|(Hno & Hlt & ->)]; cbn [fst snd].
  - split; [|split; [tauto | now left]].
    clear. induction p as [|c p IH]; [reflexivity|].
    change (String c (p ++ EmptyString) = String c p). now rewrite IH.
  - split; [apply take_drop_str|].
    destruct (rfind_spec p "."%char) as [[Hd _]|[Hd (t & Ht & Hot)]].
    { destruct (rfind_spec p "/"%char) as [[Hs _]|[Hs _]]; lia. }
    rewrite Ht. split; [split; [discriminate | tauto]|].
    right. exists t. split; [reflexivity|]. split; [exact Hot|].
    destruct (rfind_spec p "/"%char) as [[_ Ho]|[Hs (u & Hu & Hou)]].
    + apply (occurs_drop_str _ (Z.to_nat (Py.rfind p "."%char))) in Ho.
      rewrite Ht in Ho. cbn in Ho. exact Ho.
    + replace (Z.to_nat (Py.rfind p "."%char))
        with (Z.to_nat (Py.rfind p "/"%char) + 1
              + Z.to_nat (Py.rfind p "."%char - Py.rfind p "/"%char - 1))%nat in Ht by lia.
      rewrite !drop_str_add, Hu in Ht. cbn [Py.drop_str] in Ht.
      apply (occurs_drop_str _ (Z.to_nat (Py.rfind p "."%char - Py.rfind p "/"%char - 1)))
        in Hou.
      rewrite Ht in Hou. cbn in Hou. exact Hou.
Qed.

(** X15.  A file whose name has no extension, a name such as "photo" or ".png"
    among them, is answered with the format error when storage is
    configured and a product identifier is given; nothing is written. *)
Theorem file_without_extension_is_rejected
    (environ : gmap string string) (uuid4 : UUID)
    (set_iteration : gset string -> list string)
    (s3_put_object : option string -> string -> list byte -> string -> option string)
    (file : UploadFile) (product_id : string) (log : list Call) :
  is_Some (s3_client environ) -> product_id <> EmptyString ->
  no_extension (filename file) ->
  upload_image environ uuid4 set_iteration s3_put_object file product_id log
  = (Return {| ImageUploadResponse.success := false;
               ImageUploadResponse.url := None;
               ImageUploadResponse.message :=
                 "허용되지 않는 파일 형식입니다. ("
                   ++ Py.join ", " (set_iteration allowed_extensions) ++ ")" |}, log).
Proof.
  intros Hs Hp Hno. apply upload_bad_extension; try assumption.
  unfold file_ext_of.
  destruct (splitext_spec (filename file)) as [[_ ->]|[H _]]; [|now destruct H].
  cbn [snd Py.lower].
  rewrite allowed_extensions_spec. intros [E|[E|[E|[E|E]]]]; discriminate E.
Qed.

(** ** Worked examples of the further properties *)

Lemma sample_rating_in_range : (1 # 2 <= Sample.float_4_3)%Q /\ (Sample.float_4_3 <= 5)%Q.
Proof. split; vm_compute; discriminate. Qed.

(** The float 4.3 is stored within 0.25 of itself, and 4.0 is no closer
    to it than what is stored. *)
Lemma validate_rating_is_nearest_witness :
  (Qabs (validate_rating Sample.float_4_3 - Sample.float_4_3) <= 1 # 4)%Q /\
  (Qabs (validate_rating Sample.float_4_3 - Sample.float_4_3)
   <= Qabs (inject_Z 8 / 2 - Sample.float_4_3))%Q.
Proof.
  exact (validate_rating_is_nearest Sample.float_4_3 8
           (proj1 sample_rating_in_range) (proj2 sample_rating_in_range)).
Defined.

Lemma validate_rating_idempotent_witness :
  (validate_rating (validate_rating Sample.float_4_3) == validate_rating Sample.float_4_3)%Q.
Proof.
  exact (proj2 (proj2 (validate_rating_idempotent Sample.float_4_3
                         (proj1 sample_rating_in_range) (proj2 sample_rating_in_range)))).
Defined.

Lemma validate_rating_monotone_witness :
  (1 # 2 <= 5 # 4)%Q /\ (5 # 4 <= Sample.float_4_3)%Q /\
  (validate_rating (5 # 4) <= validate_rating Sample.float_4_3)%Q.
Proof.
  assert (H1 : (1 # 2 <= 5 # 4)%Q) by (vm_compute; discriminate).
  assert (H2 : (5 # 4 <= Sample.float_4_3)%Q) by (vm_compute; discriminate).
  split; [exact H1|]. split; [exact H2|].
  exact (validate_rating_monotone (5 # 4) Sample.float_4_3 H1 H2
           (proj2 sample_rating_in_range)).
Defined.



Lemma optional_fields_are_normalised_witness :
  exists doc : document,
    snd (post_api_reviews Sample.env_s3 Sample.uuid Sample.now Sample.db_ok
           (Sample2.body_with (Some None) (Some (Some ["a.png"; "b.png"]))) [])
    = [InsertOne "ecommerce" "reviews" doc] /\
    doc_get doc "content" = Some (VStr EmptyString) /\
    doc_get doc "images" = Some (VList ["a.png"; "b.png"]).
Proof.
  exact (optional_fields_are_normalised Sample.env_s3 Sample.uuid Sample.now Sample.db_ok
           (Sample2.body_with (Some None) (Some (Some ["a.png"; "b.png"])))
           {| product_id := "p1"; rating := validate_rating (4 # 1); user_name := "alice";
              content := None; images := Some ["a.png"; "b.png"] |} [] eq_refl).
Defined.

Lemma unconfirmed_insert_is_reported_witness :
  fst (post_api_reviews Sample.env_s3 Sample.uuid Sample.now Sample2.db_unconfirmed
         Sample.review_p1 [])
  = {| status := 200;
       body := JsonReview
         {| ReviewResponse.success := false;
            ReviewResponse.review_id := None;
            ReviewResponse.message := "리뷰 저장에 실패했습니다" |} |}.
Proof.
  exact (f_equal fst
           (unconfirmed_insert_is_reported Sample.env_s3 Sample.uuid Sample.now
              Sample2.db_unconfirmed Sample.review_p1
              (Sample.accepted "p1" Sample.float_4_3) [] eq_refl eq_refl)).
Defined.

Lemma returned_reviewId_is_the_stored_one_witness :
  exists doc : document,
    snd (post_api_reviews Sample.env_s3 Sample.uuid Sample.now Sample.db_ok
           Sample.review_p1 [])
    = [InsertOne "ecommerce" "reviews" doc] /\
    doc_get doc "reviewId" = Some (VStr "1b4e28ba-2fa1-11d2-883f-0016d3cca427").
Proof.
  exact (proj2 (returned_reviewId_is_the_stored_one Sample.env_s3 Sample.uuid Sample.now
                  Sample.db_ok Sample.review_p1 []
                  {| ReviewResponse.success := true;
                     ReviewResponse.review_id := Some (str_uuid Sample.uuid);
                     ReviewResponse.message := "리뷰가 등록되었습니다" |} eq_refl)
           "1b4e28ba-2fa1-11d2-883f-0016d3cca427" eq_refl).
Defined.

Lemma s3_client_iff_credentials_witness :
  is_Some (s3_client Sample.env_s3) /\ s3_client Sample2.env_key_only = None.
Proof.
  split.
  - apply (s3_client_iff_credentials Sample.env_s3). split; eexists; (split; [reflexivity|]);
      discriminate.
  - reflexivity.
Defined.

Lemma upload_without_credentials_is_500_witness :
  Sample2.env_key_only !! "AWS_SECRET_ACCESS_KEY" = None /\
  post_api_upload_image Sample2.env_key_only Sample.uuid elements Sample.s3_ok
    (Some (Sample.image "photo.png" 1)) (Some "p1") []
  = ({| status := 500; body := JsonDetail "S3 설정이 되어있지 않습니다" |}, []).
Proof.
  split; [reflexivity|].
  apply (upload_without_credentials_is_500 Sample2.env_key_only Sample.uuid elements
           Sample.s3_ok (Sample.image "photo.png" 1) (Some "p1") []).
  right; right; left. reflexivity.
Defined.

Lemma upload_success_iff_witness :
  fst (upload_image Sample.env_s3 Sample.uuid elements Sample.s3_down
         (Sample.image "photo.png" 1) "p1" [])
  = Return {| ImageUploadResponse.success := false;
              ImageUploadResponse.url := None;
              ImageUploadResponse.message :=
                "업로드 실패: Could not connect to the endpoint URL" |} /\
  (false = true <->
     "p1" <> EmptyString /\
     file_ext_of (Sample.image "photo.png" 1) ∈ allowed_extensions /\
     (Z.of_nat (length (file_contents (Sample.image "photo.png" 1))) <= 10 * 1024 * 1024)%Z /\
     Sample.s3_down (AWS_S3_BUCKET_NAME Sample.env_s3)
       (s3_key_of Sample.uuid (Sample.image "photo.png" 1) "p1")
       (file_contents (Sample.image "photo.png" 1))
       (Py.str_or (file_content_type (Sample.image "photo.png" 1)) "image/jpeg") = None).
Proof.
  split; [reflexivity|].
  exact (proj1 (upload_success_iff Sample.env_s3 Sample.uuid elements Sample.s3_down
                  (Sample.image "photo.png" 1) "p1" []
                  {| ImageUploadResponse.success := false;
                     ImageUploadResponse.url := None;
                     ImageUploadResponse.message :=
                       "업로드 실패: Could not connect to the endpoint URL" |} eq_refl)).
Defined.

Lemma upload_issues_at_most_one_put_witness :
  snd (upload_image Sample.env_s3 Sample.uuid elements Sample.s3_down
         (Sample.image "photo.PNG" 1) "p1" [])
  = [PutObject (Some "review-images")
       "reviews/p1/1b4e28ba-2fa1-11d2-883f-0016d3cca427.png" [x00] "image/png"] /\
  snd (upload_image Sample.env_s3 Sample.uuid elements Sample.s3_ok
         (Sample.image "photo.bmp" 1) "p1" []) = [].
Proof.
  split.
  - apply (upload_issues_at_most_one_put Sample.env_s3 Sample.uuid elements Sample.s3_down
             (Sample.image "photo.PNG" 1) "p1" []).
    split; [exact sample_s3_configured|]. split; [discriminate|]. split.
    + apply allowed_extensions_spec. right; right; left. reflexivity.
    + rewrite sample_image_size. discriminate.
  - apply (upload_issues_at_most_one_put Sample.env_s3 Sample.uuid elements Sample.s3_ok
             (Sample.image "photo.bmp" 1) "p1" []).
    intros (_ & _ & He & _). apply allowed_extensions_spec in He.
    destruct He as [E|[E|[E|[E|E]]]]; discriminate E.
Defined.

Lemma file_without_extension_is_rejected_witness :
  no_extension ".png" /\
  fst (upload_image Sample.env_s3 Sample.uuid elements Sample.s3_ok
         (Sample.image ".png" 1) "p1" [])
  = Return {| ImageUploadResponse.success := false;
              ImageUploadResponse.url := None;
              ImageUploadResponse.message :=
                "허용되지 않는 파일 형식입니다. ("
                  ++ Py.join ", " (elements allowed_extensions) ++ ")" |}.
Proof.
  assert (H : no_extension ".png") by (right; reflexivity).
  split; [exact H|].
  exact (f_equal fst
           (file_without_extension_is_rejected Sample.env_s3 Sample.uuid elements Sample.s3_ok
              (Sample.image ".png" 1) "p1" [] sample_s3_configured ltac:(discriminate) H)).
Defined.

(** X13.  The answers of the upload route: 422 when the request carries no
    file; 500 with the configuration message when it does and storage is
    not configured; otherwise always 200 with an [ImageUploadResponse].
    An exception of the storage backend never reaches the server's own
    500 answer. *)
Theorem upload_route_answers
    (environ : gmap string string) (uuid4 : UUID)
    (set_iteration : gset string -> list string)
    (s3_put_object : option string -> string -> list byte -> string -> option string)
    (file : option UploadFile) (product_id : option string) (log : list Call) :
  body (fst (post_api_upload_image environ uuid4 set_iteration s3_put_object
               file product_id log)) <> InternalServerError /\
  (file = None ->
   post_api_upload_image environ uuid4 set_iteration s3_put_object file product_id log
   = ({| status := 422; body := JsonValidationErrors [("file", missing)] |}, log)) /\
  (is_Some file -> s3_client environ = None ->
   post_api_upload_image environ uuid4 set_iteration s3_put_object file product_id log
   = ({| status := 500; body := JsonDetail "S3 설정이 되어있지 않습니다" |}, log)) /\
  (is_Some file -> is_Some (s3_client environ) ->
   exists resp : ImageUploadResponse.t,
     fst (post_api_upload_image environ uuid4 set_iteration s3_put_object
            file product_id log)
     = {| status := 200; body := JsonImageUpload resp |}).
Proof.
  assert (Hconf : forall f, is_Some (s3_client environ) ->
            exists resp,
              fst (upload_image environ uuid4 set_iteration s3_put_object f
                     (default EmptyString product_id) log) = Return resp).
  { intros f Hs. set (pid := default EmptyString product_id).
    destruct (decide (pid = EmptyString)) as [->|Hp].
    { rewrite (upload_no_product environ uuid4 set_iteration s3_put_object f log Hs).
      now eexists. }
    destruct (decide (file_ext_of f ∈ allowed_extensions)) as [He|He].
    2:{ rewrite (upload_bad_extension environ uuid4 set_iteration s3_put_object
                   f pid log Hs Hp He). now eexists. }
    destruct (too_large (file_contents f)) eqn:Hl.
    { rewrite (upload_too_large environ uuid4 set_iteration s3_put_object
                 f pid log Hs Hp He Hl). now eexists. }
    rewrite (upload_validated environ uuid4 set_iteration s3_put_object
               f pid log Hs Hp He Hl).
    cbn [fst]. destruct (s3_put_object _ _ _ _); now eexists. }
  assert (Hrun : forall f, is_Some (s3_client environ) ->
            exists resp,
              fst (post_api_upload_image environ uuid4 set_iteration s3_put_object
                     (Some f) product_id log)
              = {| status := 200; body := JsonImageUpload resp |}).
  { intros f Hs. destruct (Hconf f Hs) as [resp Hresp]. exists resp.
    unfold post_api_upload_image.
    destruct (upload_image _ _ _ _ f _ log) as [o log'].
    cbn [fst] in *. now rewrite Hresp. }
  assert (Hnone : forall f, s3_client environ = None ->
            post_api_upload_image environ uuid4 set_iteration s3_put_object
              (Some f) product_id log
            = ({| status := 500; body := JsonDetail "S3 설정이 되어있지 않습니다" |}, log)).
  { intros f Hc. unfold post_api_upload_image.
    now rewrite (upload_not_configured environ uuid4 set_iteration s3_put_object
                   f (default EmptyString product_id) log Hc). }
  split; [|split; [|split]].
  - destruct file as [f|]; [|discriminate].
    destruct (s3_client environ) as [c|] eqn:Hc.
    + destruct (Hrun f) as [resp ->]; [now eexists | discriminate].
    + rewrite (Hnone f eq_refl). discriminate.
  - now intros ->.
  - intros [f ->]. apply Hnone.
  - intros [f ->]. apply Hrun.
Qed.

Lemma upload_route_answers_witness :
  post_api_upload_image Sample.env_no_s3 Sample.uuid elements Sample.s3_down
    (Some (Sample.image "photo.png" 1)) (Some "p1") []
  = ({| status := 500; body := JsonDetail "S3 설정이 되어있지 않습니다" |}, []) /\
  exists resp : ImageUploadResponse.t,
    fst (post_api_upload_image Sample.env_s3 Sample.uuid elements Sample.s3_down
           (Some (Sample.image "photo.png" 1)) (Some "p1") [])
    = {| status := 200; body := JsonImageUpload resp |}.
Proof.
  split.
  - apply (upload_route_answers Sample.env_no_s3 Sample.uuid elements Sample.s3_down
             (Some (Sample.image "photo.png" 1)) (Some "p1") []);
      [now eexists | reflexivity].
  - apply (upload_route_answers Sample.env_s3 Sample.uuid elements Sample.s3_down
             (Some (Sample.image "photo.png" 1)) (Some "p1") []);
      [now eexists | exact sample_s3_configured].
Defined.
